(** * Var2Stat: configuration synthesis and resolution

    A shallow embedding of [dump_config.py] and [generate_fonts.py].

    Conventions of the embedding.
    - A Python number (an [int], or a finite [float] such as the 16.16
      values fontTools reads from [fvar]) is a canonical rational [Qc]:
      Python's numeric [==] is then Leibniz equality, and [x - y], [abs],
      [<] and [>=] are exact.
    - A Python [str] is a [string]; a character stands for the code point
      of the same number (code points below 256).
    - A [dict] keyed by axis tag is a [gmap string _]; a [dict] whose
      iteration order is observed (the weight table, the variants) is an
      association list in insertion order.
    - A raised exception is the left injection of [result]. *)

From Stdlib Require Import Ascii String QArith Qcanon Qabs Qcabs DecimalString Lqa.
From stdpp Require Import gmap strings list fin_maps numbers sorting.
From Stdlib Require Import DecimalPos DecimalZ.

Local Open Scope Z_scope.
Local Open Scope string_scope.
Local Open Scope list_scope.

(** ** Python values and exceptions *)

Module Py.

Inductive exn : Type :=
| ValueError (msg : string)
| KeyError (key : string)
| ExternalError (msg : string).

Definition result (A : Type) : Type := (exn + A)%type.

Definition raise {A} (e : exn) : result A := inl e.
Definition ret {A} (a : A) : result A := inr a.

Definition bind {A B} (c : result A) (k : A → result B) : result B :=
  match c with
  | inl e => inl e
  | inr a => k a
  end.

(** [int(x)] on a number: the fractional part is discarded. *)
Definition int (x : Qc) : Z := Z.quot (Qnum x) (Z.pos (Qden x)).

(** [str(n)] / [f"{n}"] on an [int]. *)
Definition str_of_int (n : Z) : string := NilZero.string_of_int (Z.to_int n).

(** [min(xs, key=key)]: the first element whose key is minimal;
    [ValueError] on an empty sequence. *)
Definition min_step {A} (key : A → Qc) (best x : A) : A :=
  if decide (key x < key best)%Qc then x else best.

Definition min {A} (xs : list A) (key : A → Qc) : result A :=
  match xs with
  | [] => raise (ValueError "min() arg is an empty sequence")
  | x :: xs' => ret (foldl (min_step key) x xs')
  end.

(** [s.replace(' ', '')]. *)
Fixpoint remove_spaces (s : string) : string :=
  match s with
  | EmptyString => EmptyString
  | String c s' =>
      if Ascii.eqb c " "%char then remove_spaces s'
      else String c (remove_spaces s')
  end.

(** [s.encode("utf-16-be")]: two bytes per code point, high byte first. *)
Fixpoint encode_utf_16_be (s : string) : list Byte.byte :=
  match s with
  | EmptyString => []
  | String c s' => Byte.x00 :: Ascii.byte_of_ascii c :: encode_utf_16_be s'
  end.

End Py.

Notation "'try!' x ':=' c 'in' k" := (Py.bind c (λ x, k))
  (at level 10, x name, c at level 100, k at level 200, only parsing).

(** ** The fontTools objects the two scripts read and write *)

Module FontTools.

(** A record of the [name] table; [string_] is its [string] attribute
    (encoded bytes). *)
Record NameRecord : Type := mkNameRecord {
  nameID : Z;
  platformID : Z;
  platEncID : Z;
  langID : Z;
  string_ : list Byte.byte
}.

Record Axis : Type := mkAxis {
  axisTag : string;
  minValue : Qc;
  defaultValue : Qc;
  maxValue : Qc
}.

Record NamedInstance : Type := mkNamedInstance {
  subfamilyNameID : Z;
  coordinates : gmap string Qc
}.

Record table_fvar : Type := mk_fvar {
  axes : list Axis;
  instances : list NamedInstance
}.

Record table_OS2 : Type := mk_OS2 {
  usWeightClass : Z;
  usWidthClass : Z;
  fsSelection : Z
}.

Record table_head : Type := mk_head {
  unitsPerEm : Z;
  macStyle : Z;
  lowestRecPPEM : Z
}.

(** A [TTFont]: the four tables the scripts look into, each present or
    not, and the remaining tables by tag. *)
Record TTFont : Type := mkTTFont {
  tbl_fvar : option table_fvar;
  tbl_name : option (list NameRecord);
  tbl_OS2 : option table_OS2;
  tbl_head : option table_head;
  tbl_other : gmap string (list Byte.byte)
}.

Definition set_string_ (b : list Byte.byte) (r : NameRecord) : NameRecord :=
  {| nameID := nameID r; platformID := platformID r;
     platEncID := platEncID r; langID := langID r; string_ := b |}.

Definition set_usWeightClass (n : Z) (t : table_OS2) : table_OS2 :=
  {| usWeightClass := n; usWidthClass := usWidthClass t;
     fsSelection := fsSelection t |}.

Definition set_macStyle (n : Z) (t : table_head) : table_head :=
  {| unitsPerEm := unitsPerEm t; macStyle := n;
     lowestRecPPEM := lowestRecPPEM t |}.

End FontTools.

(** ** The configuration document

    The dictionary [create_config_structure] returns and
    [generate_from_config] reads back: [axes] maps a tag to a number or to
    [None]; [variants] maps a variant name to its overrides. *)

Record Config : Type := mkConfig {
  cfg_schema : string;
  cfg_file : string;
  cfg_font_name : string;
  cfg_axes : gmap string (option Qc);
  cfg_variants : list (string * gmap string Qc)
}.

(** [d[k] = v] on an insertion-ordered dictionary: an existing key keeps
    its position, a new key goes last. *)
Fixpoint dict_set {V} (d : list (string * V)) (k : string) (v : V)
  : list (string * V) :=
  match d with
  | [] => [(k, v)]
  | (k', v') :: d' =>
      if decide (k' = k) then (k, v) :: d' else (k', v') :: dict_set d' k v
  end.

(** [d.get(k)] on a dictionary with optional values: [None] both for a
    missing key and for a key bound to [None]. *)
Definition dict_get {V} (d : gmap string (option V)) (k : string) : option V :=
  match d !! k with
  | Some v => v
  | None => None
  end.

(** The family-name test shared by both [extract_font_info]. *)
Definition is_family_record (record : FontTools.NameRecord) : bool :=
  bool_decide (FontTools.nameID record = 1)
  && bool_decide (FontTools.platformID record = 3)
  && bool_decide (FontTools.platEncID record = 1).

(** [{axis.axisTag: axis.defaultValue for axis in font["fvar"].axes}]:
    a later axis with the same tag replaces an earlier one. *)
Definition axis_defaults_of (axes : list FontTools.Axis) : gmap string Qc :=
  foldl (λ d axis, <[FontTools.axisTag axis := FontTools.defaultValue axis]> d)
        ∅ axes.

(** ** dump_config.py *)

Module DumpConfig.

Definition SCHEMA : string := "schema.json".

(** The table [weight_names] of [extract_font_info], in the order of
    the literal. *)
Definition weight_names : list (Z * string) :=
  [ (100, "Thin"); (200, "ExtraLight"); (300, "Light");
    (400, "Regular"); (500, "Medium"); (600, "SemiBold");
    (700, "Bold"); (800, "ExtraBold"); (900, "Black") ].

(** [weight_names.keys()]. *)
Definition weight_names_keys : list Z := weight_names.*1.

(** [weight_names[k]] for a number [k]; keys compare numerically. *)
Definition weight_names_get (k : Qc) : Py.result string :=
  match List.find (λ kv, bool_decide (Qc_of_Z kv.1 = k)) weight_names with
  | Some kv => Py.ret kv.2
  | None => Py.raise (Py.KeyError "weight_names")
  end.

(** [k in weight_names]. *)
Definition weight_names_mem (k : Qc) : bool :=
  existsb (λ kv, bool_decide (Qc_of_Z kv.1 = k)) weight_names.

(** The key of the [min] call, [lambda x: abs(x - weight_value)]. *)
Definition distance (weight_value : Qc) (x : Z) : Qc :=
  Qcabs (Qc_of_Z x - weight_value).

(** The body of the loop over [enumerate(font["fvar"].instances)] that
    computes [instance_name] from the 0-based index [i]. *)
Definition instance_name (i : nat) (coordinates : gmap string Qc)
  : Py.result string :=
  match coordinates !! "wght" with
  | Some weight_value =>
      if weight_names_mem weight_value then
        weight_names_get weight_value
      else
        try! closest := Py.min weight_names_keys (distance weight_value) in
        try! label := weight_names_get (Qc_of_Z closest) in
        Py.ret (label +:+ Py.str_of_int (Py.int weight_value))
  | None =>
      Py.ret ("Instance" +:+ Py.str_of_int (Z.of_nat i + 1))
  end.

Record FontInfo : Type := mkFontInfo {
  font_path : string;
  font_name : string;
  axes_defaults : gmap string Qc;
  variants : list (string * gmap string Qc)
}.

(** The loop [for i, instance in enumerate(font["fvar"].instances)]. *)
Fixpoint collect_variants (i : nat) (instances : list FontTools.NamedInstance)
    (variants : list (string * gmap string Qc))
  : Py.result (list (string * gmap string Qc)) :=
  match instances with
  | [] => Py.ret variants
  | instance :: rest =>
      let coordinates := FontTools.coordinates instance in
      try! name := instance_name i coordinates in
      collect_variants (S i) rest (dict_set variants name coordinates)
  end.

Section Introspection.

(** [record.toUnicode()], fontTools' decoding of a name record. *)
Variable toUnicode : FontTools.NameRecord → Py.result string.

(** [extract_font_info] on the font opened from [font_path];
    [font_path_str] is [str(font_path_obj)] and [stem] is
    [font_path_obj.stem]. *)
Definition extract_font_info (font_path_str stem : string)
    (font : FontTools.TTFont) : Py.result FontInfo :=
  match FontTools.tbl_fvar font with
  | None =>
      Py.raise
        (Py.ValueError "This is not a variable font (missing fvar table)")
  | Some fvar =>
      match FontTools.tbl_name font with
      | None => Py.raise (Py.KeyError "name")
      | Some names =>
          try! original_font_name :=
            match List.find is_family_record names with
            | Some record =>
                try! s := toUnicode record in Py.ret (Some s)
            | None => Py.ret None
            end in
          let original_font_name :=
            match original_font_name with
            | None | Some "" => stem
            | Some s => s
            end in
          let axes_defaults := axis_defaults_of (FontTools.axes fvar) in
          try! variants :=
            collect_variants 0 (FontTools.instances fvar) [] in
          Py.ret {| font_path := font_path_str;
                    font_name := original_font_name;
                    axes_defaults := axes_defaults;
                    variants := variants |}
      end
  end.

End Introspection.

(** The list [axis_values] of [create_config_structure] for one tag. *)
Definition axis_values (axis_tag : string)
    (variants : list (string * gmap string Qc)) : list Qc :=
  omap (λ nv, nv.2 !! axis_tag) variants.

(** The value stored in [global_axes[axis_tag]]. *)
Definition global_value (axis_values : list Qc) : option Qc :=
  match axis_values with
  | [] => None
  | first :: _ =>
      if forallb (λ val, bool_decide (val = first)) axis_values
      then Some first else None
  end.

(** The loop [for axis_tag in available_axes]. *)
Definition global_axes_of (available_axes : list string)
    (variants : list (string * gmap string Qc)) : gmap string (option Qc) :=
  foldl (λ global_axes axis_tag,
           <[axis_tag := global_value (axis_values axis_tag variants)]>
             global_axes)
        ∅ available_axes.

(** The comprehension building one [optimized_variant]. *)
Definition optimized_variant (global_axes : gmap string (option Qc))
    (variant_axes : gmap string Qc) : gmap string Qc :=
  filter (λ kv, dict_get global_axes kv.1 ≠ Some kv.2) variant_axes.

Definition create_config_structure (font_info : FontInfo) : Config :=
  let variants := variants font_info in
  let available_axes := (map_to_list (axes_defaults font_info)).*1 in
  let global_axes := global_axes_of available_axes variants in
  let optimized_variants :=
    (λ nv, (nv.1, optimized_variant global_axes nv.2)) <$> variants in
  {| cfg_schema := "./" +:+ SCHEMA;
     cfg_file := font_path font_info;
     cfg_font_name := font_name font_info;
     cfg_axes := global_axes;
     cfg_variants := optimized_variants |}.

End DumpConfig.

(** ** generate_fonts.py *)

Module GenerateFonts.

Import FontTools.

(** [remove_variation_tables]. *)
Definition variation_tables : list string :=
  ["fvar"; "avar"; "gvar"; "cvar"; "HVAR"; "VVAR"; "MVAR"; "STAT"].

Definition remove_variation_tables (font : TTFont) : TTFont :=
  {| tbl_fvar := None;
     tbl_name := tbl_name font;
     tbl_OS2 := tbl_OS2 font;
     tbl_head := tbl_head font;
     tbl_other := foldl (λ tables table, delete table tables)
                        (tbl_other font) variation_tables |}.

(** The names [update_font_names] derives. *)
Definition full_name (font_name variant_name : string) : string :=
  if decide (variant_name = "Regular") then font_name
  else font_name +:+ " " +:+ variant_name.

Definition ps_name (font_name variant_name : string) : string :=
  Py.remove_spaces font_name +:+ "-" +:+ variant_name.

(** The body of [for record in name_table.names]. *)
Definition update_record (font_name variant_name : string)
    (record : NameRecord) : NameRecord :=
  if bool_decide (platformID record = 3)
     && bool_decide (platEncID record = 1) then
    if bool_decide (nameID record = 1) then
      set_string_ (Py.encode_utf_16_be font_name) record
    else if bool_decide (nameID record = 2) then
      set_string_ (Py.encode_utf_16_be variant_name) record
    else if bool_decide (nameID record = 4) then
      set_string_ (Py.encode_utf_16_be (full_name font_name variant_name))
                  record
    else if bool_decide (nameID record = 6) then
      set_string_ (Py.encode_utf_16_be (ps_name font_name variant_name))
                  record
    else record
  else record.

(** [axes.get("wght", 400)]. *)
Definition weight_value_of (axes : gmap string Qc) : Qc :=
  default (Qc_of_Z 400) (axes !! "wght").

(** [macStyle |= 0x01] when bold, [macStyle &= ~0x01] otherwise. *)
Definition update_macStyle (weight_value : Qc) (macStyle : Z) : Z :=
  if decide (Qc_of_Z 700 ≤ weight_value)%Qc
  then Z.lor macStyle 1
  else Z.land macStyle (Z.lnot 1).

(** [update_font_names]; the font is mutated in place, the result is
    the font after the call. [font["name"]] raises before any write. *)
Definition update_font_names (font : TTFont)
    (font_name variant_name : string) (axes : gmap string Qc)
  : Py.result TTFont :=
  match tbl_name font with
  | None => Py.raise (Py.KeyError "name")
  | Some names =>
      let weight_value := weight_value_of axes in
      Py.ret
        {| tbl_fvar := tbl_fvar font;
           tbl_name := Some (update_record font_name variant_name <$> names);
           tbl_OS2 := set_usWeightClass (Py.int weight_value)
                        <$> tbl_OS2 font;
           tbl_head := (λ head,
                          set_macStyle
                            (update_macStyle weight_value (macStyle head))
                            head) <$> tbl_head font;
           tbl_other := tbl_other font |}
  end.

Definition MissingFamilyName : Py.exn :=
  Py.ValueError "Could not extract font family name from font file".

(** [merged_axes = global_axes.copy(); merged_axes.update(variant_config)]. *)
Definition merge_axes (global_axes : gmap string (option Qc))
    (variant_config : gmap string Qc) : gmap string (option Qc) :=
  (Some <$> variant_config) ∪ global_axes.

(** The comprehension building [resolved_axes]. *)
Definition resolve_axes (merged_axes : gmap string (option Qc))
    (font_defaults : gmap string Qc) : gmap string Qc :=
  map_imap (λ axis value,
              match font_defaults !! axis with
              | Some default_value =>
                  Some (match value with
                        | None => default_value
                        | Some v => v
                        end)
              | None => None
              end)
           merged_axes.

(** What the script prints. *)
Inductive Output : Type :=
| InfoFontName (font_name : string)
| InfoOriginalFontName (original_font_name : string)
| InfoTargetFontName (font_name : string)
| InfoAvailableAxes (tags : list string)
| InfoVariants
| VariantLine (variant_name : string) (resolved_axes : gmap string Qc)
| ErrorFailed (variant_name : string) (e : Py.exn)
| InfoGenerated (success_count total : nat)
| InfoSaved (output_dir : string).

Section Generation.

(** [record.toUnicode()]. *)
Variable toUnicode : NameRecord → Py.result string.

(** [instancer.instantiateVariableFont(font, axes)]: a new font, the
    source font is not modified. *)
Variable instantiateVariableFont :
  TTFont → gmap string Qc → Py.result TTFont.

(** The file system and [static_font.save(os.path.join(folder, file))]:
    the file system after the call and the exception raised, if any. *)
Variable FS : Type.
Variable save : TTFont → string → string → FS → FS * option Py.exn.

Record World : Type := mkWorld {
  stdout : list Output;
  files : FS
}.

Definition print (o : Output) (w : World) : World :=
  {| stdout := stdout w ++ [o]; files := files w |}.

Definition extract_font_info (font : TTFont)
  : Py.result (gmap string Qc * string) :=
  match tbl_fvar font with
  | None =>
      Py.raise (Py.ValueError "Not a variable font (missing fvar table)")
  | Some fvar =>
      match tbl_name font with
      | None => Py.raise (Py.ValueError "Font missing name table")
      | Some names =>
          let font_defaults := axis_defaults_of (axes fvar) in
          match List.find is_family_record names with
          | Some record =>
              try! s := toUnicode record in
              Py.ret (font_defaults, s)
          | None => Py.raise MissingFamilyName
          end
      end
  end.

(** [generate_variant]: the [try] block runs in [Py.result], the
    [except Exception] handler turns a raised exception into [False]. *)
Definition generate_variant (font : TTFont)
    (font_name variant_name : string)
    (variant_config : gmap string Qc)
    (global_axes : gmap string (option Qc))
    (font_defaults : gmap string Qc)
    (output_folder : string) (w : World) : World * bool :=
  let merged_axes := merge_axes global_axes variant_config in
  let resolved_axes := resolve_axes merged_axes font_defaults in
  let w := print (VariantLine variant_name resolved_axes) w in
  match
    (try! static_font := instantiateVariableFont font resolved_axes in
     let static_font := remove_variation_tables static_font in
     update_font_names static_font font_name variant_name resolved_axes)
  with
  | inl e => (print (ErrorFailed variant_name e) w, false)
  | inr static_font =>
      let output_filename :=
        Py.remove_spaces font_name +:+ "-" +:+ variant_name +:+ ".ttf" in
      match save static_font output_folder output_filename (files w) with
      | (fs, Some e) =>
          (print (ErrorFailed variant_name e)
                 {| stdout := stdout w; files := fs |}, false)
      | (fs, None) => ({| stdout := stdout w; files := fs |}, true)
      end
  end.

(** The loop [for variant_name, variant_config in
    config["variants"].items()] with its counter. *)
Definition generate_variants (font : TTFont) (font_name : string)
    (config : Config) (font_defaults : gmap string Qc)
    (output_dir : string) (w : World) : World * nat :=
  foldl (λ (st : World * nat) nv,
           let '(w', ok) :=
             generate_variant font font_name nv.1 nv.2 (cfg_axes config)
                              font_defaults output_dir st.1 in
           (w', if ok then S st.2 else st.2))
        (w, 0%nat) (cfg_variants config).

(** [generate_from_config] from the [try] block on: [config] is the
    loaded document and [font] the opened [TTFont]. The result is the
    exception that leaves the function, if any. *)
Definition generate_from_config (config : Config) (output_dir : string)
    (font : TTFont) (w : World) : World * option Py.exn :=
  match extract_font_info font with
  | inl e => (w, Some e)
  | inr (font_defaults, original_font_name) =>
      let font_name :=
        if decide (cfg_font_name config = "") then original_font_name
        else cfg_font_name config in
      let w :=
        if decide (original_font_name = font_name)
        then print (InfoFontName font_name) w
        else print (InfoTargetFontName font_name)
                   (print (InfoOriginalFontName original_font_name) w) in
      let w := print (InfoAvailableAxes (map_to_list font_defaults).*1) w in
      let w := print InfoVariants w in
      let '(w, success_count) :=
        generate_variants font font_name config font_defaults
                          output_dir w in
      let w := print (InfoGenerated success_count
                                    (length (cfg_variants config))) w in
      let w := print (InfoSaved output_dir) w in
      (w, None)
  end.

End Generation.

End GenerateFonts.

(** ** Reading the printed lines

    The variants whose processing started, and the variants reported as
    failed, in the order of the printed lines. *)

Definition attempted (out : list GenerateFonts.Output) : list string :=
  omap (λ o, match o with
             | GenerateFonts.VariantLine variant_name _ => Some variant_name
             | _ => None
             end) out.

Definition failed (out : list GenerateFonts.Output) : list string :=
  omap (λ o, match o with
             | GenerateFonts.ErrorFailed variant_name _ => Some variant_name
             | _ => None
             end) out.


(** ** A sample font and sample capabilities *)

Module Sample.

Import FontTools.

Definition toUnicode (record : NameRecord) : Py.result string :=
  Py.ret "Demo Sans".

(** An instancer that returns the source font unchanged. *)
Definition instantiateVariableFont (font : TTFont) (axes : gmap string Qc)
  : Py.result TTFont :=
  Py.ret font.

(** A file system that records the folder and name of each saved file. *)
Definition save (font : TTFont) (folder file : string)
    (fs : list (string * string)) : list (string * string) * option Py.exn :=
  (fs ++ [(folder, file)], None).

Definition fvar : table_fvar :=
  mk_fvar
    [ mkAxis "wght" (Qc_of_Z 100) (Qc_of_Z 400) (Qc_of_Z 900);
      mkAxis "wdth" (Qc_of_Z 75) (Qc_of_Z 100) (Qc_of_Z 125) ]
    [ mkNamedInstance 256
        {[ "wght" := Qc_of_Z 400; "wdth" := Qc_of_Z 100 ]};
      mkNamedInstance 257
        {[ "wght" := Q2Qc (3251 # 5); "wdth" := Qc_of_Z 100 ]};
      mkNamedInstance 258
        {[ "wght" := Q2Qc (6507 # 10); "wdth" := Qc_of_Z 100 ]};
      mkNamedInstance 259
        {[ "wght" := Qc_of_Z 400; "wdth" := Qc_of_Z 75 ]} ].

Definition font : TTFont :=
  {| tbl_fvar := Some fvar;
     tbl_name := Some [ mkNameRecord 1 3 1 1033 []; mkNameRecord 2 3 1 1033 [];
                        mkNameRecord 4 3 1 1033 []; mkNameRecord 6 3 1 1033 [];
                        mkNameRecord 1 1 0 0 [] ];
     tbl_OS2 := Some (mk_OS2 400 5 64);
     tbl_head := Some (mk_head 1000 0 6);
     tbl_other := {[ "gvar" := []; "glyf" := [] ]} |}.

(** What [dump_config.extract_font_info] returns on [font]. *)
Definition font_info : DumpConfig.FontInfo :=
  {| DumpConfig.font_path := "/fonts/DemoSans.ttf";
     DumpConfig.font_name := "Demo Sans";
     DumpConfig.axes_defaults :=
       {[ "wght" := Qc_of_Z 400; "wdth" := Qc_of_Z 100 ]};
     DumpConfig.variants :=
       [ ("Regular", {[ "wght" := Qc_of_Z 400; "wdth" := Qc_of_Z 75 ]});
         ("Bold650", {[ "wght" := Q2Qc (6507 # 10); "wdth" := Qc_of_Z 100 ]}) ]
  |}.

End Sample.

(** A file system that records every call of [save] in order, with its
    folder and file name, whether or not the call raises. *)
Definition recording_save
    (raises : FontTools.TTFont → string → string → option Py.exn)
    (font : FontTools.TTFont) (folder file : string)
    (fs : list (string * string)) : list (string * string) * option Py.exn :=
  (fs ++ [(folder, file)], raises font folder file).

(** * Properties *)

(** ** Numbers *)

Section Numbers.

Local Open Scope Qc_scope.

(** The distance used as the key of [min], read in [Q]. *)
Lemma distance_this (x : Z) (w : Qc) :
  (this (Qcabs (Qc_of_Z x - w)) == Qabs (inject_Z x - this w))%Q.
Proof.
  unfold Qcabs, Qcminus, Qcplus, Qcopp, Q2Qc. simpl.
  rewrite !Qred_correct. reflexivity.
Qed.

(** A point is at the same distance from at most two numbers. *)
Lemma no_three_equidistant (x y z w : Q) :
  (x < y)%Q → (y < z)%Q →
  (Qabs (x - w) == Qabs (y - w))%Q →
  (Qabs (y - w) == Qabs (z - w))%Q → False.
Proof.
  intros Hxy Hyz.
  apply (Qabs_case (x - w)); apply (Qabs_case (y - w));
    apply (Qabs_case (z - w)); intros; lra.
Qed.

Lemma Qc_of_Z_inj (a b : Z) : Qc_of_Z a = Qc_of_Z b → a = b.
Proof.
  intros H. apply (f_equal this) in H. simpl in H.
  by injection H.
Qed.

(** [int] truncates toward zero. *)
Lemma int_nonneg (w : Qc) :
  0 ≤ w → Qc_of_Z (Py.int w) ≤ w ∧ w < Qc_of_Z (Py.int w + 1).
Proof.
  destruct w as [[n d] Hc].
  unfold Py.int, Qcle, Qclt, Qle, Qlt. simpl. intros H.
  assert (0 ≤ n)%Z by lia.
  rewrite Z.quot_div_nonneg by lia.
  pose proof (Z.div_mod n (Z.pos d) ltac:(lia)).
  pose proof (Z.mod_pos_bound n (Z.pos d) ltac:(lia)).
  nia.
Qed.

Lemma int_nonpos (w : Qc) :
  w ≤ 0 → Qc_of_Z (Py.int w - 1) < w ∧ w ≤ Qc_of_Z (Py.int w).
Proof.
  destruct w as [[n d] Hc].
  unfold Py.int, Qcle, Qclt, Qle, Qlt. simpl. intros H.
  assert (n ≤ 0)%Z by lia.
  replace n with (- (- n))%Z by lia.
  rewrite Z.quot_opp_l by lia.
  rewrite Z.quot_div_nonneg by lia.
  pose proof (Z.div_mod (- n) (Z.pos d) ltac:(lia)).
  pose proof (Z.mod_pos_bound (- n) (Z.pos d) ltac:(lia)).
  nia.
Qed.

End Numbers.

(** ** [min] returns the first minimizer *)

Section Min.

Context {A : Type} (key : A → Qc).

Lemma foldl_min_step_split (x : A) (xs : list A) :
  ∃ l1 l2,
    x :: xs = l1 ++ foldl (Py.min_step key) x xs :: l2
    ∧ (∀ y, y ∈ l1 → (key (foldl (Py.min_step key) x xs) < key y)%Qc)
    ∧ (∀ y, y ∈ l2 → (key (foldl (Py.min_step key) x xs) ≤ key y)%Qc).
Proof.
  induction xs as [|y xs IH] using rev_ind.
  - exists [], []. simpl. split; [done|]. split; intros ? H; inversion H.
  - destruct IH as (l1 & l2 & Heq & Hl1 & Hl2).
    rewrite foldl_app. simpl. set (r := foldl (Py.min_step key) x xs) in *.
    assert (Hstep : Py.min_step key r y
                    = if decide (key y < key r)%Qc then y else r) by done.
    rewrite Hstep. clear Hstep.
    destruct (decide (key y < key r)%Qc) as [Hlt|Hge].
    + exists (x :: xs), []. split; [by rewrite app_comm_cons|].
      split; [|intros ? H; inversion H].
      intros z Hz. rewrite Heq in Hz.
      apply elem_of_app in Hz as [Hz|Hz].
      * eapply Qclt_trans; [exact Hlt|]. by apply Hl1.
      * apply elem_of_cons in Hz as [->|Hz]; [done|].
        eapply Qclt_le_trans; [exact Hlt|]. by apply Hl2.
    + exists l1, (l2 ++ [y]). split.
      { rewrite app_comm_cons, Heq. by rewrite <- app_assoc. }
      split; [done|]. intros z Hz.
      apply elem_of_app in Hz as [Hz|Hz]; [by apply Hl2|].
      apply list_elem_of_singleton in Hz as ->. by apply Qcnot_lt_le.
Qed.

Lemma min_first_minimizer (xs : list A) (r : A) :
  Py.min xs key = inr r →
  ∃ l1 l2,
    xs = l1 ++ r :: l2
    ∧ (∀ y, y ∈ l1 → (key r < key y)%Qc)
    ∧ (∀ y, y ∈ l2 → (key r ≤ key y)%Qc).
Proof.
  destruct xs as [|x xs]; [done|]. simpl. intros [= <-].
  apply foldl_min_step_split.
Qed.

Lemma min_nonempty (xs : list A) :
  xs ≠ [] → ∃ r, Py.min xs key = inr r.
Proof. destruct xs; [done|]. intros _. by eexists. Qed.

Lemma min_minimal (xs : list A) (r : A) :
  Py.min xs key = inr r →
  r ∈ xs ∧ ∀ y, y ∈ xs → (key r ≤ key y)%Qc.
Proof.
  intros (l1 & l2 & -> & Hl1 & Hl2)%min_first_minimizer. split.
  - apply elem_of_app. right. by left.
  - intros y [Hy|Hy]%elem_of_app.
    + by apply Qclt_le_weak, Hl1.
    + apply elem_of_cons in Hy as [->|Hy]; [apply Qcle_refl|by apply Hl2].
Qed.

End Min.

(** ** Weight-name resolution *)

Section WeightNames.

Import DumpConfig.
Local Open Scope Qc_scope.

Ltac split_elem_of H :=
  repeat (apply elem_of_cons in H as [H|H]); [..|by apply elem_of_nil in H].

Lemma weight_names_keys_sorted : StronglySorted Z.lt weight_names_keys.
Proof. repeat constructor; lia. Qed.

Lemma weight_names_keys_elem_of (k : Z) :
  k ∈ weight_names_keys ↔ ∃ label, (k, label) ∈ weight_names.
Proof.
  unfold weight_names_keys. rewrite list_elem_of_fmap. split.
  - intros [[k' label] [-> H]]. by exists label.
  - intros [label H]. by exists (k, label).
Qed.

Lemma weight_names_exact (k : Z) (label : string) :
  (k, label) ∈ weight_names →
  weight_names_mem (Qc_of_Z k) = true
  ∧ weight_names_get (Qc_of_Z k) = inr label.
Proof.
  intros H. unfold weight_names in H.
  split_elem_of H; injection H as -> ->; by vm_compute.
Qed.

Lemma weight_names_mem_false (w : Qc) :
  (∀ k, k ∈ weight_names_keys → Qc_of_Z k ≠ w) →
  weight_names_mem w = false.
Proof.
  intros Hne. destruct (weight_names_mem w) eqn:E; [|done].
  apply existsb_exists in E as ([k label] & Hin & Hk).
  apply bool_decide_eq_true in Hk. simpl in Hk.
  destruct (Hne k); [|done].
  apply weight_names_keys_elem_of. exists label. by apply list_elem_of_In.
Qed.

(** On the ascending key list, [min] returns the lowest minimizer. *)
Lemma min_lowest_minimizer (w : Qc) (r a : Z) :
  Py.min weight_names_keys (distance w) = inr r →
  a ∈ weight_names_keys → distance w a ≤ distance w r → (r ≤ a)%Z.
Proof.
  intros (l1 & l2 & Heq & Hl1 & _)%min_first_minimizer Ha Hle.
  pose proof weight_names_keys_sorted as Hs. rewrite Heq in Hs, Ha.
  apply elem_of_app in Ha as [Ha|Ha].
  - apply Hl1 in Ha. by apply Qclt_not_le in Ha.
  - apply elem_of_cons in Ha as [->|Ha]; [done|].
    apply StronglySorted_app_1_r, StronglySorted_cons in Hs as [Hs _].
    rewrite Forall_forall in Hs. by apply Z.lt_le_incl, Hs.
Qed.

Lemma distance_zero (w : Qc) (k : Z) : distance w k ≤ 0 → Qc_of_Z k = w.
Proof.
  intros H. apply Qc_is_canon. unfold Qcle, distance in H.
  rewrite distance_this in H.
  assert (Hz : (this 0%Qc == 0)%Q) by reflexivity. rewrite Hz in H.
  change (this (Qc_of_Z k)) with (inject_Z k).
  revert H. apply (Qabs_case (inject_Z k - this w)); intros; lra.
Qed.

Lemma distance_exact (k : Z) : distance (Qc_of_Z k) k = 0.
Proof.
  apply Qc_is_canon. unfold distance. rewrite distance_this.
  assert (Hz : (this 0%Qc == 0)%Q) by reflexivity. rewrite Hz.
  change (this (Qc_of_Z k)) with (inject_Z k).
  apply (Qabs_case (inject_Z k - inject_Z k)); intros; lra.
Qed.

Lemma distance_eq_this (w : Qc) (x y : Z) :
  distance w x = distance w y →
  (Qabs (inject_Z x - this w) == Qabs (inject_Z y - this w))%Q.
Proof.
  intros H. unfold distance in H.
  rewrite <- !distance_this. by rewrite H.
Qed.

Lemma not_exact_instance_name (i : nat) (coordinates : gmap string Qc)
    (w : Qc) (closest : Z) (label : string) :
  coordinates !! "wght" = Some w →
  (∀ k, k ∈ weight_names_keys → Qc_of_Z k ≠ w) →
  Py.min weight_names_keys (distance w) = inr closest →
  (closest, label) ∈ weight_names →
  instance_name i coordinates = inr (label +:+ Py.str_of_int (Py.int w)).
Proof.
  intros Hw Hne Hmin Hlabel. unfold instance_name.
  rewrite Hw, (weight_names_mem_false _ Hne), Hmin. simpl.
  by destruct (weight_names_exact _ _ Hlabel) as [_ ->].
Qed.

(** C5: the name of an instance is the canonical label on an exact
    match of its [wght] coordinate, otherwise the label of a canonical
    weight at minimal absolute distance followed by the coordinate
    truncated toward zero, and [Instance<n>] with the 1-based index
    [n = i + 1] when the instance has no [wght] coordinate. *)
Theorem weight_name_resolver (i : nat) (coordinates : gmap string Qc) :
  (∀ w k label,
      coordinates !! "wght" = Some w →
      (k, label) ∈ weight_names → Qc_of_Z k = w →
      instance_name i coordinates = inr label)
  ∧ (∀ w,
      coordinates !! "wght" = Some w →
      (∀ k, k ∈ weight_names_keys → Qc_of_Z k ≠ w) →
      ∃ closest label,
        (closest, label) ∈ weight_names
        ∧ (∀ k, k ∈ weight_names_keys → distance w closest ≤ distance w k)
        ∧ instance_name i coordinates
          = inr (label +:+ Py.str_of_int (Py.int w))
        ∧ (0 ≤ w → Qc_of_Z (Py.int w) ≤ w ∧ w < Qc_of_Z (Py.int w + 1))
        ∧ (w ≤ 0 → Qc_of_Z (Py.int w - 1) < w ∧ w ≤ Qc_of_Z (Py.int w)))
  ∧ (coordinates !! "wght" = None →
      instance_name i coordinates
      = inr ("Instance" +:+ Py.str_of_int (Z.of_nat (S i)))).
Proof.
  split; [|split].
  - intros w k label Hw Hlabel <-. unfold instance_name. rewrite Hw.
    by destruct (weight_names_exact _ _ Hlabel) as [-> ->].
  - intros w Hw Hne.
    destruct (min_nonempty (distance w) weight_names_keys) as [closest Hmin];
      [done|].
    destruct (min_minimal _ _ _ Hmin) as [Hin Hle].
    apply weight_names_keys_elem_of in Hin as [label Hlabel].
    exists closest, label. split; [done|]. split; [done|].
    split; [by eapply not_exact_instance_name|].
    split; [apply int_nonneg|apply int_nonpos].
  - intros Hw. unfold instance_name. rewrite Hw.
    by rewrite Nat2Z.inj_succ.
Qed.

(** C6: when two canonical weights [a < b] are both at the minimal
    distance from the [wght] coordinate, the minimization returns the
    lower one, [a], and the instance is named after [a]'s label. *)
Theorem nearest_weight_tie_break (i : nat) (coordinates : gmap string Qc)
    (w : Qc) (a b : Z) :
  coordinates !! "wght" = Some w →
  a ∈ weight_names_keys → b ∈ weight_names_keys → (a < b)%Z →
  distance w a = distance w b →
  (∀ k, k ∈ weight_names_keys → distance w a ≤ distance w k) →
  Py.min weight_names_keys (distance w) = inr a
  ∧ ∃ label,
      (a, label) ∈ weight_names
      ∧ instance_name i coordinates
        = inr (label +:+ Py.str_of_int (Py.int w)).
Proof.
  intros Hw Ha Hb Hlt Heq Hmin.
  assert (Hne : ∀ k, k ∈ weight_names_keys → Qc_of_Z k ≠ w).
  { intros k Hk <-. pose proof (Hmin k Hk) as H0.
    rewrite distance_exact in H0.
    pose proof (distance_zero _ _ H0) as Ea. rewrite Heq in H0.
    pose proof (distance_zero _ _ H0) as Eb.
    apply Qc_of_Z_inj in Ea, Eb. lia. }
  destruct (min_nonempty (distance w) weight_names_keys) as [r Hr]; [done|].
  destruct (min_minimal _ _ _ Hr) as [Hrin Hrle].
  assert (Hra : (r ≤ a)%Z).
  { eapply min_lowest_minimizer; [done..|]. by apply Hmin. }
  assert (r = a) as ->.
  { destruct (decide (r = a)) as [|Hneq]; [done|]. exfalso.
    assert (Era : distance w r = distance w a).
    { apply Qcle_antisym; [by apply Hrle|by apply Hmin]. }
    apply (no_three_equidistant (inject_Z r) (inject_Z a) (inject_Z b)
                                (this w)).
    - rewrite <- Zlt_Qlt. lia.
    - by rewrite <- Zlt_Qlt.
    - by apply distance_eq_this.
    - by apply distance_eq_this. }
  split; [done|].
  apply weight_names_keys_elem_of in Ha as [label Hlabel].
  exists label. split; [done|]. by eapply not_exact_instance_name.
Qed.

Lemma weight_name_resolver_witness :
  instance_name 0 {[ "wght" := Qc_of_Z 400 ]} = inr "Regular"
  ∧ (∃ closest label,
        (closest, label) ∈ weight_names
        ∧ (∀ k, k ∈ weight_names_keys →
                distance (Q2Qc (1301 # 2)) closest
                ≤ distance (Q2Qc (1301 # 2)) k)
        ∧ instance_name 0 {[ "wght" := Q2Qc (1301 # 2) ]}
          = inr (label +:+ "650"))
  ∧ instance_name 2 ∅ = inr "Instance3".
Proof.
  split; [|split].
  - apply (proj1 (weight_name_resolver 0 {[ "wght" := Qc_of_Z 400 ]})
                 (Qc_of_Z 400) 400%Z "Regular");
      [reflexivity | | reflexivity].
    unfold weight_names. do 3 right. left.
  - destruct (proj1 (proj2 (weight_name_resolver
                              0 {[ "wght" := Q2Qc (1301 # 2) ]}))
                    (Q2Qc (1301 # 2)))
      as (closest & label & H1 & H2 & H3 & _).
    + reflexivity.
    + intros k Hk E. apply (f_equal this) in E.
      unfold weight_names_keys, weight_names in Hk. simpl in Hk.
      split_elem_of Hk; subst k; discriminate E.
    + exists closest, label. split; [exact H1|]. split; [exact H2|exact H3].
  - apply (proj2 (proj2 (weight_name_resolver 2 ∅))). reflexivity.
Defined.

Lemma nearest_weight_tie_break_witness :
  Py.min weight_names_keys (distance (Qc_of_Z 150)) = inr 100%Z
  ∧ ∃ label,
      (100%Z, label) ∈ weight_names
      ∧ instance_name 0 {[ "wght" := Qc_of_Z 150 ]}
        = inr (label +:+ "150").
Proof.
  apply (nearest_weight_tie_break 0 {[ "wght" := Qc_of_Z 150 ]}
                                  (Qc_of_Z 150) 100 200).
  - reflexivity.
  - unfold weight_names_keys, weight_names. simpl. left.
  - unfold weight_names_keys, weight_names. simpl. right. left.
  - lia.
  - apply Qc_is_canon. reflexivity.
  - intros k Hk. unfold weight_names_keys, weight_names in Hk. simpl in Hk.
    split_elem_of Hk; subst k; vm_compute; discriminate.
Defined.

(** Every midpoint of two neighbouring canonical weights is named after
    the lower one. *)
Example midpoints_take_lower_label :
  (λ w, instance_name 0 {[ "wght" := Qc_of_Z w ]})
    <$> [150; 250; 350; 450; 550; 650; 750; 850]%Z
  = inr <$> [ "Thin150"; "ExtraLight250"; "Light350"; "Regular450";
              "Medium550"; "SemiBold650"; "Bold750"; "ExtraBold850" ].
Proof. by vm_compute. Qed.

End WeightNames.

(** ** Axis resolution *)

Section Resolution.

Import GenerateFonts.

Lemma lookup_merge_axes (global_axes : gmap string (option Qc))
    (variant_config : gmap string Qc) (axis : string) :
  merge_axes global_axes variant_config !! axis
  = match variant_config !! axis with
    | Some v => Some (Some v)
    | None => global_axes !! axis
    end.
Proof.
  unfold merge_axes. rewrite lookup_union, lookup_fmap.
  destruct (variant_config !! axis), (global_axes !! axis); done.
Qed.

Lemma lookup_resolve_axes (merged_axes : gmap string (option Qc))
    (font_defaults : gmap string Qc) (axis : string) :
  resolve_axes merged_axes font_defaults !! axis
  = match font_defaults !! axis, merged_axes !! axis with
    | Some default_value, Some value => Some (default default_value value)
    | _, _ => None
    end.
Proof.
  unfold resolve_axes. rewrite map_lookup_imap.
  destruct (merged_axes !! axis) as [[v|]|], (font_defaults !! axis); done.
Qed.

Lemma lookup_resolve_merge (global_axes : gmap string (option Qc))
    (variant_config font_defaults : gmap string Qc) (axis : string) :
  resolve_axes (merge_axes global_axes variant_config) font_defaults !! axis
  = match font_defaults !! axis with
    | None => None
    | Some default_value =>
        match variant_config !! axis with
        | Some v => Some v
        | None =>
            match global_axes !! axis with
            | Some (Some g) => Some g
            | Some None => Some default_value
            | None => None
            end
        end
    end.
Proof.
  rewrite lookup_resolve_axes, lookup_merge_axes.
  destruct (font_defaults !! axis); [|done].
  destruct (variant_config !! axis); [done|].
  by destruct (global_axes !! axis) as [[g|]|].
Qed.

(** C3: for every axis the resolver keeps the override's value when the
    override carries the axis, else the scalar of [global_axes], else,
    for an axis [global_axes] leaves unset, the font default; an axis
    that is not in the font's defaults is dropped. *)
Theorem resolution_precedence (global_axes : gmap string (option Qc))
    (variant_config font_defaults : gmap string Qc) (axis : string) :
  resolve_axes (merge_axes global_axes variant_config) font_defaults !! axis
  = match font_defaults !! axis with
    | None => None
    | Some default_value =>
        match variant_config !! axis with
        | Some v => Some v
        | None =>
            match global_axes !! axis with
            | Some (Some g) => Some g
            | Some None => Some default_value
            | None => None
            end
        end
    end
  ∧ resolve_axes (merge_axes {[ "wght" := None ]}
                             {[ "wght" := Qc_of_Z 650 ]})
                 {[ "wght" := Qc_of_Z 400 ]}
    = {[ "wght" := Qc_of_Z 650 ]}.
Proof.
  split; [apply lookup_resolve_merge|].
  apply map_eq. intros tag. rewrite lookup_resolve_merge.
  destruct (decide (tag = "wght")) as [->|Hne].
  - by rewrite !lookup_singleton_eq.
  - by rewrite !lookup_singleton_ne.
Qed.

(** C2: when every tag of the font's defaults is a key of
    [global_axes], the resolved axes have exactly the tags of the font's
    defaults, each bound to a number. *)
Theorem resolution_total (global_axes : gmap string (option Qc))
    (variant_config font_defaults : gmap string Qc) :
  dom font_defaults ⊆ dom global_axes →
  dom (resolve_axes (merge_axes global_axes variant_config) font_defaults)
  = dom font_defaults
  ∧ ∀ axis, axis ∈ dom font_defaults →
      ∃ value : Qc,
        resolve_axes (merge_axes global_axes variant_config) font_defaults
          !! axis = Some value.
Proof.
  intros Hwf.
  assert (Hlookup : ∀ axis, axis ∈ dom font_defaults →
    is_Some (resolve_axes (merge_axes global_axes variant_config)
                          font_defaults !! axis)).
  { intros axis Hin. pose proof (Hwf _ Hin) as Hg.
    apply elem_of_dom in Hin as [d Hd]. apply elem_of_dom in Hg as [g Hg].
    rewrite lookup_resolve_merge, Hd, Hg.
    destruct (variant_config !! axis), g; by eexists. }
  split; [|exact Hlookup].
  apply set_eq. intros axis. split.
  - intros [v Hv]%elem_of_dom. apply elem_of_dom.
    rewrite lookup_resolve_axes in Hv.
    destruct (font_defaults !! axis); [by eexists|done].
  - intros Hin. apply elem_of_dom. by apply Hlookup.
Qed.

Lemma resolution_total_witness :
  dom (resolve_axes (merge_axes {[ "wght" := None ]} ∅)
                    {[ "wght" := Qc_of_Z 400 ]})
  = dom ({[ "wght" := Qc_of_Z 400 ]} : gmap string Qc)
  ∧ ∀ axis, axis ∈ dom ({[ "wght" := Qc_of_Z 400 ]} : gmap string Qc) →
      ∃ value : Qc,
        resolve_axes (merge_axes {[ "wght" := None ]} ∅)
                     {[ "wght" := Qc_of_Z 400 ]} !! axis = Some value.
Proof.
  apply (resolution_total {[ "wght" := None ]} ∅ {[ "wght" := Qc_of_Z 400 ]}).
  rewrite !dom_singleton_L. reflexivity.
Defined.

End Resolution.

(** ** Global-axis factoring and the configuration document *)

Section Factoring.

Import DumpConfig.

Implicit Types (variants : list (string * gmap string Qc))
               (axis_tag : string).

Lemma elem_of_axis_values axis_tag variants (x : Qc) :
  x ∈ axis_values axis_tag variants
  ↔ ∃ name coordinates,
      (name, coordinates) ∈ variants ∧ coordinates !! axis_tag = Some x.
Proof.
  unfold axis_values. rewrite list_elem_of_omap. split.
  - intros ([name coordinates] & Hin & Hx). by exists name, coordinates.
  - intros (name & coordinates & Hin & Hx). by exists (name, coordinates).
Qed.

Lemma global_value_agree (l : list Qc) (v : Qc) :
  l ≠ [] → (∀ x, x ∈ l → x = v) → global_value l = Some v.
Proof.
  destruct l as [|first l]; [done|]. intros _ Hall. unfold global_value.
  assert (first = v) as -> by (apply Hall; by left).
  rewrite (proj2 (forallb_forall _ _)); [done|].
  intros x Hx. apply bool_decide_eq_true. apply Hall.
  by apply list_elem_of_In.
Qed.

Lemma global_value_disagree (l : list Qc) (x y : Qc) :
  x ∈ l → y ∈ l → x ≠ y → global_value l = None.
Proof.
  destruct l as [|first l]; [by intros ?%elem_of_nil|].
  intros Hx Hy Hne. unfold global_value.
  destruct (forallb _ _) eqn:E; [|done]. exfalso.
  rewrite forallb_forall in E. apply Hne.
  apply list_elem_of_In, E, bool_decide_eq_true in Hx.
  apply list_elem_of_In, E, bool_decide_eq_true in Hy. congruence.
Qed.

Lemma global_value_Some (l : list Qc) (v : Qc) :
  global_value l = Some v → l ≠ [] ∧ ∀ x, x ∈ l → x = v.
Proof.
  destruct l as [|first l]; [done|]. unfold global_value.
  destruct (forallb _ _) eqn:E; [|done]. intros [= ->]. split; [done|].
  intros x Hx. rewrite forallb_forall in E.
  by apply list_elem_of_In, E, bool_decide_eq_true in Hx.
Qed.

Lemma lookup_global_axes_of (available_axes : list string) variants axis_tag :
  global_axes_of available_axes variants !! axis_tag
  = if decide (axis_tag ∈ available_axes)
    then Some (global_value (axis_values axis_tag variants))
    else None.
Proof.
  unfold global_axes_of.
  assert (H : ∀ g : gmap string (option Qc),
    foldl (λ global_axes tag,
             <[tag := global_value (axis_values tag variants)]> global_axes)
          g available_axes !! axis_tag
    = if decide (axis_tag ∈ available_axes)
      then Some (global_value (axis_values axis_tag variants))
      else g !! axis_tag).
  { induction available_axes as [|tag l IH]; intros g; cbn [foldl].
    - case_decide as Hin; [by apply elem_of_nil in Hin|done].
    - rewrite IH. destruct (decide (axis_tag ∈ l)) as [Hin|Hnin].
      + case_decide as Hin'; [done|]. destruct Hin'. by right.
      + case_decide as Hin'.
        * apply elem_of_cons in Hin' as [->|?]; [|done].
          by rewrite lookup_insert_eq.
        * rewrite lookup_insert_ne; [done|].
          intros ->. apply Hin'. by left. }
  rewrite H. by destruct (decide _).
Qed.

Lemma elem_of_available_axes {V} (axes_defaults : gmap string V) axis_tag :
  axis_tag ∈ (map_to_list axes_defaults).*1 ↔ axis_tag ∈ dom axes_defaults.
Proof.
  rewrite list_elem_of_fmap, elem_of_dom. split.
  - intros ([tag v] & -> & Hin). apply elem_of_map_to_list in Hin.
    by exists v.
  - intros [v Hv]. exists (axis_tag, v). split; [done|].
    by apply elem_of_map_to_list.
Qed.

(** The [axes] of the document, one tag at a time. *)
Lemma lookup_cfg_axes (font_info : FontInfo) axis_tag :
  cfg_axes (create_config_structure font_info) !! axis_tag
  = if decide (axis_tag ∈ dom (axes_defaults font_info))
    then Some (global_value (axis_values axis_tag (variants font_info)))
    else None.
Proof.
  unfold create_config_structure. simpl. rewrite lookup_global_axes_of.
  destruct (decide (axis_tag ∈ dom _)) as [Hin|Hnin].
  - rewrite decide_True; [done|]. by apply elem_of_available_axes.
  - rewrite decide_False; [done|]. by rewrite elem_of_available_axes.
Qed.

Lemma lookup_optimized_variant (global_axes : gmap string (option Qc))
    (variant_axes : gmap string Qc) axis_tag (value : Qc) :
  optimized_variant global_axes variant_axes !! axis_tag = Some value
  ↔ variant_axes !! axis_tag = Some value
    ∧ dict_get global_axes axis_tag ≠ Some value.
Proof. unfold optimized_variant. by rewrite map_lookup_filter_Some. Qed.

Lemma lookup_cfg_variants (font_info : FontInfo) (n : nat) :
  cfg_variants (create_config_structure font_info) !! n
  = (λ nv, (nv.1, optimized_variant
                    (cfg_axes (create_config_structure font_info)) nv.2))
      <$> variants font_info !! n.
Proof. unfold create_config_structure. simpl. by rewrite list_lookup_fmap. Qed.

(** C4: for a tag of the font's defaults, when some instance declares
    the axis and all declared coordinates equal [v], [axes] binds the tag
    to [v] and no variant override carries the tag; when two instances
    declare different coordinates, or no instance declares the axis,
    [axes] binds the tag to [None]. The keys of [axes] are the tags of
    the font's defaults, each once. *)
Theorem factoring_correctness (font_info : FontInfo) axis_tag :
  axis_tag ∈ dom (axes_defaults font_info) →
  let config := create_config_structure font_info in
  (∀ v : Qc,
      (∃ name coordinates,
          (name, coordinates) ∈ variants font_info
          ∧ is_Some (coordinates !! axis_tag)) →
      (∀ name coordinates x,
          (name, coordinates) ∈ variants font_info →
          coordinates !! axis_tag = Some x → x = v) →
      cfg_axes config !! axis_tag = Some (Some v)
      ∧ ∀ name override,
          (name, override) ∈ cfg_variants config →
          override !! axis_tag = None)
  ∧ ((∃ name1 coordinates1 name2 coordinates2 (x y : Qc),
         (name1, coordinates1) ∈ variants font_info
         ∧ (name2, coordinates2) ∈ variants font_info
         ∧ coordinates1 !! axis_tag = Some x
         ∧ coordinates2 !! axis_tag = Some y
         ∧ x ≠ y) →
     cfg_axes config !! axis_tag = Some None)
  ∧ ((∀ name coordinates,
         (name, coordinates) ∈ variants font_info →
         coordinates !! axis_tag = None) →
     cfg_axes config !! axis_tag = Some None)
  ∧ dom (cfg_axes config) = dom (axes_defaults font_info)
  ∧ axis_tag ∈ (map_to_list (cfg_axes config)).*1
  ∧ NoDup (map_to_list (cfg_axes config)).*1.
Proof.
  intros Hin config.
  assert (Hlook : cfg_axes config !! axis_tag
                  = Some (global_value
                            (axis_values axis_tag (variants font_info)))).
  { unfold config. rewrite lookup_cfg_axes. by rewrite decide_True. }
  assert (Hdom : dom (cfg_axes config) = dom (axes_defaults font_info)).
  { apply set_eq. intros tag. rewrite elem_of_dom. unfold config.
    rewrite lookup_cfg_axes. case_decide as Htag.
    - split; [done|]. by eexists.
    - split; [by intros [? ?]|done]. }
  assert (Hagree : ∀ v : Qc,
    (∃ name coordinates,
        (name, coordinates) ∈ variants font_info
        ∧ is_Some (coordinates !! axis_tag)) →
    (∀ name coordinates x,
        (name, coordinates) ∈ variants font_info →
        coordinates !! axis_tag = Some x → x = v) →
    global_value (axis_values axis_tag (variants font_info)) = Some v).
  { intros v (name & coordinates & Hv & [x Hx]) Hall.
    apply global_value_agree.
    - intros Hnil.
      assert (Hx' : x ∈ axis_values axis_tag (variants font_info)).
      { apply elem_of_axis_values. by exists name, coordinates. }
      rewrite Hnil in Hx'. by apply elem_of_nil in Hx'.
    - intros y (name2 & coordinates2 & Hv2 & Hy)%elem_of_axis_values.
      by eapply Hall. }
  split; [|split; [|split; [|split; [|split]]]].
  - intros v Hsome Hall. rewrite Hlook, (Hagree v Hsome Hall).
    split; [done|].
    intros name override Hov.
    unfold config, create_config_structure in Hov. simpl in Hov.
    apply list_elem_of_fmap in Hov as ([name' coordinates] & [= -> ->] & Hv).
    simpl. destruct (optimized_variant _ _ !! axis_tag) as [x|] eqn:E;
      [|done].
    exfalso. apply lookup_optimized_variant in E as [Hx Hne]. apply Hne.
    unfold dict_get.
    change (global_axes_of _ _) with (cfg_axes config).
    rewrite Hlook, (Hagree v Hsome Hall). f_equal. symmetry. by eapply Hall.
  - intros (name1 & c1 & name2 & c2 & x & y & H1 & H2 & Hx & Hy & Hne).
    rewrite Hlook. f_equal. apply (global_value_disagree _ x y); [| |done].
    + apply elem_of_axis_values. by exists name1, c1.
    + apply elem_of_axis_values. by exists name2, c2.
  - intros Hnone. rewrite Hlook. f_equal.
    destruct (axis_values axis_tag (variants font_info)) as [|x l] eqn:E;
      [done|].
    assert (Hx : x ∈ axis_values axis_tag (variants font_info))
      by (rewrite E; by left).
    apply elem_of_axis_values in Hx as (name & coordinates & Hv & Hx).
    by rewrite (Hnone _ _ Hv) in Hx.
  - exact Hdom.
  - apply elem_of_available_axes. by rewrite Hdom.
  - apply NoDup_fst_map_to_list.
Qed.

Lemma factoring_correctness_witness :
  let font_info :=
    {| font_path := "/fonts/Demo.ttf"; font_name := "Demo";
       axes_defaults := {[ "wght" := Qc_of_Z 400; "wdth" := Qc_of_Z 100 ]};
       variants :=
         [ ("Regular", {[ "wght" := Qc_of_Z 400; "wdth" := Qc_of_Z 100 ]});
           ("Bold", {[ "wght" := Qc_of_Z 700; "wdth" := Qc_of_Z 100 ]}) ] |} in
  cfg_axes (create_config_structure font_info) !! "wdth"
  = Some (Some (Qc_of_Z 100))
  ∧ ∀ name override,
      (name, override) ∈ cfg_variants (create_config_structure font_info) →
      override !! "wdth" = None.
Proof.
  intros font_info.
  assert (Hin : "wdth" ∈ dom (axes_defaults font_info)).
  { apply elem_of_dom. by eexists. }
  apply (proj1 (factoring_correctness font_info "wdth" Hin) (Qc_of_Z 100)).
  - exists "Regular", {[ "wght" := Qc_of_Z 400; "wdth" := Qc_of_Z 100 ]}.
    split; [by left|by eexists].
  - intros name coordinates x Hv Hx.
    apply elem_of_cons in Hv as [Hv|Hv].
    + injection Hv as -> ->. by injection Hx.
    + apply elem_of_cons in Hv as [Hv|Hv]; [|by apply elem_of_nil in Hv].
      injection Hv as -> ->. by injection Hx.
Defined.

End Factoring.

(** ** Round trip: document builder, then resolver *)

Section RoundTrip.

Import DumpConfig.

(** The variant at position [n] of the document resolved against the
    document's [axes] and the font's defaults. *)
Lemma resolve_document_variant (font_info : FontInfo) (n : nat)
    (name : string) (coordinates : gmap string Qc) (axis_tag : string) :
  variants font_info !! n = Some (name, coordinates) →
  let config := create_config_structure font_info in
  cfg_variants config !! n
  = Some (name, optimized_variant (cfg_axes config) coordinates)
  ∧ GenerateFonts.resolve_axes
      (GenerateFonts.merge_axes
         (cfg_axes config)
         (optimized_variant (cfg_axes config) coordinates))
      (axes_defaults font_info) !! axis_tag
    = match axes_defaults font_info !! axis_tag with
      | None => None
      | Some default_value =>
          match coordinates !! axis_tag with
          | Some value => Some value
          | None =>
              Some (default default_value
                      (global_value
                         (axis_values axis_tag (variants font_info))))
          end
      end.
Proof.
  intros Hn config. split.
  { unfold config. by rewrite lookup_cfg_variants, Hn. }
  rewrite lookup_resolve_merge.
  destruct (axes_defaults font_info !! axis_tag) as [d|] eqn:Hd; [|done].
  assert (Hlook : cfg_axes config !! axis_tag
                  = Some (global_value
                            (axis_values axis_tag (variants font_info)))).
  { unfold config. rewrite lookup_cfg_axes, decide_True; [done|].
    apply elem_of_dom. by eexists. }
  rewrite Hlook.
  destruct (coordinates !! axis_tag) as [value|] eqn:Hc.
  - destruct (optimized_variant _ _ !! axis_tag) as [x|] eqn:E.
    + apply lookup_optimized_variant in E as [Hx _]. congruence.
    + destruct (global_value _) as [g|] eqn:Hg.
      * f_equal. apply global_value_Some in Hg as [_ Hall].
        symmetry. apply Hall, elem_of_axis_values. exists name, coordinates.
        split; [|done]. by eapply list_elem_of_lookup_2.
      * exfalso.
        assert (Hsome : optimized_variant (cfg_axes config) coordinates
                          !! axis_tag = Some value).
        { apply lookup_optimized_variant. split; [done|].
          unfold dict_get. by rewrite Hlook. }
        congruence.
  - destruct (optimized_variant _ _ !! axis_tag) as [x|] eqn:E.
    + apply lookup_optimized_variant in E as [Hx _]. congruence.
    + by destruct (global_value _).
Qed.

(** Outside the design space: an axis that an instance names but the
    font's defaults do not list is kept in the override and dropped by the
    resolver. *)
Example axis_outside_font_defaults_dropped :
  let coordinates : gmap string Qc :=
    {[ "wght" := Qc_of_Z 400; "slnt" := Qc_of_Z (-10) ]} in
  let font_info :=
    {| font_path := "/fonts/Demo.ttf"; font_name := "Demo";
       axes_defaults := {[ "wght" := Qc_of_Z 400 ]};
       variants := [ ("Regular", coordinates) ] |} in
  let config := create_config_structure font_info in
  cfg_axes config = {[ "wght" := Some (Qc_of_Z 400) ]}
  ∧ cfg_variants config = [ ("Regular", {[ "slnt" := Qc_of_Z (-10) ]}) ]
  ∧ GenerateFonts.resolve_axes
      (GenerateFonts.merge_axes (cfg_axes config)
                                {[ "slnt" := Qc_of_Z (-10) ]})
      (axes_defaults font_info)
    = {[ "wght" := Qc_of_Z 400 ]}.
Proof. by vm_compute. Qed.

(** C1: for an instance of the font's design space, that is, one whose
    declared tags are all axes of the font, resolving the variant that the
    document stores for it gives back, on every axis the instance
    declares, exactly the instance's coordinate. *)
Theorem round_trip (font_info : FontInfo) (n : nat) (name : string)
    (coordinates : gmap string Qc) :
  variants font_info !! n = Some (name, coordinates) →
  dom coordinates ⊆ dom (axes_defaults font_info) →
  let config := create_config_structure font_info in
  ∃ override,
    cfg_variants config !! n = Some (name, override)
    ∧ ∀ axis_tag value,
        coordinates !! axis_tag = Some value →
        GenerateFonts.resolve_axes
          (GenerateFonts.merge_axes (cfg_axes config) override)
          (axes_defaults font_info) !! axis_tag = Some value.
Proof.
  intros Hn Hspace config.
  exists (optimized_variant (cfg_axes config) coordinates). split.
  { by destruct (resolve_document_variant font_info n name coordinates ""
                   Hn) as [Hov _]. }
  intros axis_tag value Hc.
  destruct (resolve_document_variant font_info n name coordinates axis_tag Hn)
    as [_ Hres].
  etrans; [exact Hres|].
  assert (axis_tag ∈ dom (axes_defaults font_info)) as [d Hd]%elem_of_dom.
  { apply Hspace, elem_of_dom. by eexists. }
  by rewrite Hd, Hc.
Qed.

Lemma round_trip_witness :
  let font_info :=
    {| font_path := "/fonts/Demo.ttf"; font_name := "Demo";
       axes_defaults := {[ "wght" := Qc_of_Z 400; "wdth" := Qc_of_Z 100 ]};
       variants :=
         [ ("Regular", {[ "wght" := Qc_of_Z 400; "wdth" := Qc_of_Z 100 ]});
           ("Bold", {[ "wght" := Qc_of_Z 700; "wdth" := Qc_of_Z 100 ]}) ] |} in
  let config := create_config_structure font_info in
  ∃ override,
    cfg_variants config !! 1%nat = Some ("Bold", override)
    ∧ ∀ axis_tag value,
        ({[ "wght" := Qc_of_Z 700; "wdth" := Qc_of_Z 100 ]}
           : gmap string Qc) !! axis_tag = Some value →
        GenerateFonts.resolve_axes
          (GenerateFonts.merge_axes (cfg_axes config) override)
          (axes_defaults font_info) !! axis_tag = Some value.
Proof.
  intros font_info.
  apply (round_trip font_info 1 "Bold"
           {[ "wght" := Qc_of_Z 700; "wdth" := Qc_of_Z 100 ]}).
  - reflexivity.
  - by vm_compute.
Defined.

End RoundTrip.

(** ** Naming *)

Section Naming.

Import FontTools GenerateFonts.

Lemma remove_spaces_filter (s : string) :
  list_ascii_of_string (Py.remove_spaces s)
  = filter (λ c, c ≠ " "%char) (list_ascii_of_string s).
Proof.
  induction s as [|c s IH]; [done|]. simpl.
  destruct (Ascii.eqb c " ") eqn:E.
  - apply Ascii.eqb_eq in E as ->. by rewrite filter_cons_False by auto.
  - apply Ascii.eqb_neq in E. rewrite filter_cons_True by done.
    simpl. by rewrite IH.
Qed.

Lemma testbit_0_update_macStyle (weight_value : Qc) (macStyle : Z) :
  Z.testbit (update_macStyle weight_value macStyle) 0
  = bool_decide (Qc_of_Z 700 ≤ weight_value)%Qc.
Proof.
  unfold update_macStyle. destruct (decide _) as [Hbold|Hlight].
  - rewrite Z.lor_spec, bool_decide_eq_true_2 by done.
    apply orb_true_r.
  - rewrite Z.land_spec, bool_decide_eq_false_2 by done.
    apply andb_false_r.
Qed.

Lemma testbit_other_update_macStyle (weight_value : Qc) (macStyle i : Z) :
  i ≠ 0 →
  Z.testbit (update_macStyle weight_value macStyle) i = Z.testbit macStyle i.
Proof.
  intros Hi. unfold update_macStyle. destruct (decide _).
  - rewrite Z.lor_spec.
    assert (Z.testbit 1 i = false) as -> by (by destruct i).
    apply orb_false_r.
  - rewrite Z.land_spec. destruct i as [|p|p]; [done| |].
    + assert (Z.testbit (Z.lnot 1) (Z.pos p) = true) as -> by done.
      apply andb_true_r.
    + by rewrite !Z.testbit_neg_r by lia.
Qed.

Lemma update_record_ids (font_name variant_name : string)
    (record : NameRecord) :
  let record' := update_record font_name variant_name record in
  nameID record' = nameID record
  ∧ platformID record' = platformID record
  ∧ platEncID record' = platEncID record
  ∧ langID record' = langID record.
Proof.
  unfold update_record. by repeat case_bool_decide; simpl.
Qed.

Lemma update_record_other (font_name variant_name : string)
    (record : NameRecord) :
  ¬ (platformID record = 3 ∧ platEncID record = 1
     ∧ nameID record ∈ [1; 2; 4; 6]) →
  update_record font_name variant_name record = record.
Proof.
  intros Hother. unfold update_record.
  repeat case_bool_decide; simpl; try done;
    destruct Hother; (split; [done|split; [done|]]);
    match goal with H : nameID record = _ |- _ => rewrite H end;
    set_solver.
Qed.

(** C7: on a font with a [name] table, [update_font_names] returns a
    font whose [name] table has, position by position, the records of the
    input with the same identifiers, where each Windows Unicode record
    (platformID 3, platEncID 1) holds the family name for nameID 1, the
    variant name for nameID 2, the family name (alone for the variant
    "Regular", else followed by a space and the variant name) for
    nameID 4, and the family name without spaces, a hyphen and the
    variant name for nameID 6. An [OS/2] table of the input is still there
    with [usWeightClass] the truncated [wght] value, 400 without a [wght]
    entry; a [head] table of the input is still there with bit 0 of
    [macStyle] set exactly when the weight is at least 700. *)
Theorem naming_deriver (font : TTFont) (font_name variant_name : string)
    (axes : gmap string Qc) (names : list NameRecord) :
  tbl_name font = Some names →
  ∃ font' names',
    update_font_names font font_name variant_name axes = inr font'
    ∧ tbl_name font' = Some names'
    ∧ length names' = length names
    ∧ (∀ (i : nat) record,
          names !! i = Some record →
          ∃ record',
            names' !! i = Some record'
            ∧ nameID record' = nameID record
            ∧ platformID record' = platformID record
            ∧ platEncID record' = platEncID record
            ∧ (platformID record = 3 → platEncID record = 1 →
               (nameID record = 1 →
                string_ record' = Py.encode_utf_16_be font_name)
               ∧ (nameID record = 2 →
                  string_ record' = Py.encode_utf_16_be variant_name)
               ∧ (nameID record = 4 →
                  string_ record'
                  = Py.encode_utf_16_be
                      (if decide (variant_name = "Regular") then font_name
                       else font_name +:+ " " +:+ variant_name))
               ∧ (nameID record = 6 →
                  string_ record'
                  = Py.encode_utf_16_be
                      (Py.remove_spaces font_name +:+ "-"
                       +:+ variant_name))))
    ∧ match tbl_OS2 font with
      | Some os2 =>
          ∃ os2',
            tbl_OS2 font' = Some os2'
            ∧ usWeightClass os2'
              = match axes !! "wght" with
                | Some weight_value => Py.int weight_value
                | None => 400
                end
      | None => tbl_OS2 font' = None
      end
    ∧ match tbl_head font with
      | Some head =>
          ∃ head',
            tbl_head font' = Some head'
            ∧ (Z.testbit (macStyle head') 0 = true
               ↔ (Qc_of_Z 700 ≤ default (Qc_of_Z 400) (axes !! "wght"))%Qc)
      | None => tbl_head font' = None
      end.
Proof.
  intros Hnames. unfold update_font_names. rewrite Hnames.
  eexists _, _. split; [done|]. split; [done|].
  cbn [tbl_name tbl_OS2 tbl_head]. split; [by rewrite length_fmap|].
  split; [|split].
  - intros i record Hi.
    exists (update_record font_name variant_name record).
    split; [by rewrite list_lookup_fmap, Hi|].
    destruct (update_record_ids font_name variant_name record)
      as (Hid & Hp & He & _).
    repeat (split; [done|]).
    intros Hp3 He1. unfold update_record.
    rewrite !bool_decide_eq_true_2 by done. simpl.
    repeat case_bool_decide; simpl; repeat split; intros; try done; lia.
  - destruct (tbl_OS2 font) as [os2|]; [|done].
    eexists. split; [done|]. cbn [usWeightClass set_usWeightClass].
    unfold weight_value_of. by destruct (axes !! "wght").
  - destruct (tbl_head font) as [head|]; [|done].
    eexists. split; [done|]. cbn [macStyle set_macStyle].
    rewrite testbit_0_update_macStyle.
    unfold weight_value_of. apply bool_decide_eq_true.
Qed.

(** C10: [update_font_names] leaves every table other than [name],
    [OS/2] and [head] as it was; it keeps the number, order and
    identifiers of the name records and changes at most the string of a
    record with platformID 3, platEncID 1 and nameID 1, 2, 4 or 6; in
    [OS/2] it changes at most [usWeightClass]; in [head] at most bit 0
    of [macStyle]. It raises only for a font without a [name] table,
    before any write. *)
Theorem update_font_names_frame (font : TTFont)
    (font_name variant_name : string) (axes : gmap string Qc) :
  match update_font_names font font_name variant_name axes with
  | inl e => tbl_name font = None ∧ e = Py.KeyError "name"
  | inr font' =>
      tbl_fvar font' = tbl_fvar font
      ∧ tbl_other font' = tbl_other font
      ∧ (∃ names names',
            tbl_name font = Some names ∧ tbl_name font' = Some names'
            ∧ length names' = length names
            ∧ ∀ (i : nat) record,
                names !! i = Some record →
                ∃ record',
                  names' !! i = Some record'
                  ∧ nameID record' = nameID record
                  ∧ platformID record' = platformID record
                  ∧ platEncID record' = platEncID record
                  ∧ langID record' = langID record
                  ∧ (¬ (platformID record = 3 ∧ platEncID record = 1
                        ∧ nameID record ∈ [1; 2; 4; 6]) →
                     record' = record))
      ∧ match tbl_OS2 font, tbl_OS2 font' with
        | Some os2, Some os2' =>
            usWidthClass os2' = usWidthClass os2
            ∧ fsSelection os2' = fsSelection os2
        | None, None => True
        | _, _ => False
        end
      ∧ match tbl_head font, tbl_head font' with
        | Some head, Some head' =>
            unitsPerEm head' = unitsPerEm head
            ∧ lowestRecPPEM head' = lowestRecPPEM head
            ∧ ∀ i, i ≠ 0 →
                Z.testbit (macStyle head') i = Z.testbit (macStyle head) i
        | None, None => True
        | _, _ => False
        end
  end.
Proof.
  unfold update_font_names.
  destruct (tbl_name font) as [names|] eqn:Hnames; [|done].
  cbn [Py.ret tbl_fvar tbl_other tbl_name tbl_OS2 tbl_head].
  split; [done|]. split; [done|]. split; [|split].
  - exists names, (update_record font_name variant_name <$> names).
    split; [done|]. split; [done|]. split; [by rewrite length_fmap|].
    intros i record Hi. exists (update_record font_name variant_name record).
    split; [by rewrite list_lookup_fmap, Hi|].
    destruct (update_record_ids font_name variant_name record)
      as (? & ? & ? & ?).
    repeat (split; [done|]). apply update_record_other.
  - by destruct (tbl_OS2 font).
  - destruct (tbl_head font) as [head|]; [|done].
    cbn [fmap option_fmap option_map unitsPerEm lowestRecPPEM macStyle
         set_macStyle].
    split; [done|]. split; [done|].
    intros i Hi. by apply testbit_other_update_macStyle.
Qed.

Lemma naming_deriver_witness :
  let names :=
    [ mkNameRecord 1 3 1 1033 []; mkNameRecord 2 3 1 1033 [];
      mkNameRecord 4 3 1 1033 []; mkNameRecord 6 3 1 1033 [];
      mkNameRecord 1 1 0 0 [] ] in
  let font :=
    {| tbl_fvar := None; tbl_name := Some names;
       tbl_OS2 := Some (mk_OS2 400 5 64);
       tbl_head := Some (mk_head 1000 0 6);
       tbl_other := ∅ |} in
  ∃ font' names',
    update_font_names font "My Font" "Bold" {[ "wght" := Qc_of_Z 700 ]}
    = inr font'
    ∧ tbl_name font' = Some names'
    ∧ length names' = 5%nat
    ∧ (∀ (i : nat) record,
          names !! i = Some record →
          ∃ record',
            names' !! i = Some record'
            ∧ nameID record' = nameID record
            ∧ platformID record' = platformID record
            ∧ platEncID record' = platEncID record
            ∧ (platformID record = 3 → platEncID record = 1 →
               (nameID record = 1 →
                string_ record' = Py.encode_utf_16_be "My Font")
               ∧ (nameID record = 2 →
                  string_ record' = Py.encode_utf_16_be "Bold")
               ∧ (nameID record = 4 →
                  string_ record' = Py.encode_utf_16_be "My Font Bold")
               ∧ (nameID record = 6 →
                  string_ record' = Py.encode_utf_16_be "MyFont-Bold")))
    ∧ (∃ os2',
          tbl_OS2 font' = Some os2' ∧ usWeightClass os2' = 700)
    ∧ (∃ head',
          tbl_head font' = Some head'
          ∧ (Z.testbit (macStyle head') 0 = true
             ↔ (Qc_of_Z 700 ≤ Qc_of_Z 700)%Qc)).
Proof.
  intros names font.
  exact (naming_deriver font "My Font" "Bold" {[ "wght" := Qc_of_Z 700 ]}
                        names eq_refl).
Defined.

(** The font [update_font_names] returns on the sample font, in full. *)
Example naming_deriver_sample :
  update_font_names Sample.font "Demo Sans" "Bold"
    {[ "wght" := Q2Qc (1401 # 2); "wdth" := Qc_of_Z 100 ]}
  = inr {| tbl_fvar := tbl_fvar Sample.font;
           tbl_name :=
             Some [ mkNameRecord 1 3 1 1033
                      (Py.encode_utf_16_be "Demo Sans");
                    mkNameRecord 2 3 1 1033 (Py.encode_utf_16_be "Bold");
                    mkNameRecord 4 3 1 1033
                      (Py.encode_utf_16_be "Demo Sans Bold");
                    mkNameRecord 6 3 1 1033
                      (Py.encode_utf_16_be "DemoSans-Bold");
                    mkNameRecord 1 1 0 0 [] ];
           tbl_OS2 := Some (mk_OS2 700 5 64);
           tbl_head := Some (mk_head 1000 1 6);
           tbl_other := tbl_other Sample.font |}.
Proof. reflexivity. Qed.

End Naming.

(** ** The generation driver *)

Section Driver.

Import FontTools GenerateFonts.

Context (toUnicode : NameRecord → Py.result string)
        (instantiateVariableFont : TTFont → gmap string Qc → Py.result TTFont)
        (FS : Type)
        (save : TTFont → string → string → FS → FS * option Py.exn).

Local Abbreviation generate_variant := (generate_variant instantiateVariableFont FS save).
Local Abbreviation generate_variants :=
  (generate_variants instantiateVariableFont FS save).
Local Abbreviation generate_from_config :=
  (generate_from_config toUnicode instantiateVariableFont FS save).

Lemma attempted_app (o1 o2 : list Output) :
  attempted (o1 ++ o2) = attempted o1 ++ attempted o2.
Proof. apply omap_app. Qed.

Lemma failed_app (o1 o2 : list Output) :
  failed (o1 ++ o2) = failed o1 ++ failed o2.
Proof. apply omap_app. Qed.

(** One call: the variant line is printed, then either the call
    succeeds or exactly one failure line follows. *)
Lemma generate_variant_outcome (font : TTFont)
    (font_name variant_name : string) (variant_config : gmap string Qc)
    (global_axes : gmap string (option Qc)) (font_defaults : gmap string Qc)
    (output_folder : string) (w : World FS) :
  let r := generate_variant font font_name variant_name variant_config
                            global_axes font_defaults output_folder w in
  let line :=
    VariantLine variant_name
      (resolve_axes (merge_axes global_axes variant_config) font_defaults) in
  (r.2 = true ∧ stdout FS r.1 = stdout FS w ++ [line])
  ∨ (r.2 = false
     ∧ ∃ e, stdout FS r.1
            = stdout FS w ++ [line; ErrorFailed variant_name e]).
Proof.
  unfold generate_variant.
  destruct (instantiateVariableFont _ _) as [e|static_font]; simpl.
  { right. split; [done|]. exists e. by rewrite <- app_assoc. }
  destruct (update_font_names _ _ _ _) as [e|named_font]; simpl.
  { right. split; [done|]. exists e. by rewrite <- app_assoc. }
  destruct (save _ _ _ _) as [fs [e|]]; simpl.
  - right. split; [done|]. exists e. by rewrite <- app_assoc.
  - by left.
Qed.

(** The loop: every variant is started, in document order, and is
    either counted or reported as failed. *)
Lemma generate_variants_outcome (font : TTFont) (font_name : string)
    (config : Config) (font_defaults : gmap string Qc)
    (output_dir : string) (w : World FS) :
  let r := generate_variants font font_name config font_defaults
                             output_dir w in
  ∃ out,
    stdout FS r.1 = stdout FS w ++ out
    ∧ attempted out = (cfg_variants config).*1
    ∧ (length (failed out) + r.2 = length (cfg_variants config))%nat.
Proof.
  unfold GenerateFonts.generate_variants.
  induction (cfg_variants config) as [|nv l IH] using rev_ind.
  - exists []. by rewrite app_nil_r.
  - rewrite foldl_app. cbn [foldl]. cbv zeta in IH.
    destruct (foldl _ _ l) as [w1 n1]. destruct IH as (out & Hout & Ha & Hf).
    cbn [fst snd] in *.
    pose proof (generate_variant_outcome font font_name nv.1 nv.2
                  (cfg_axes config) font_defaults output_dir w1) as Hv.
    cbv zeta in Hv.
    destruct (generate_variant _ _ _ _ _ _ _ _) as [w2 ok].
    cbn [fst snd] in *. rewrite fmap_app, length_app.
    cbn [fmap list_fmap length].
    destruct Hv as [[-> Hv]|[-> [e Hv]]]; rewrite Hv, Hout, <- app_assoc;
      eexists; (split; [done|]); rewrite attempted_app, failed_app, Ha; cbn.
    + rewrite app_nil_r. split; [done|]. lia.
    + rewrite length_app. cbn. split; [done|]. lia.
Qed.

Lemma generate_variants_all_fail (font : TTFont) (font_name : string)
    (config : Config) (font_defaults : gmap string Qc)
    (output_dir : string) (w : World FS) :
  (∀ f a, ∃ e, instantiateVariableFont f a = inl e) →
  let r := generate_variants font font_name config font_defaults
                             output_dir w in
  r.2 = 0%nat
  ∧ ∃ out, stdout FS r.1 = stdout FS w ++ out
           ∧ failed out = (cfg_variants config).*1.
Proof.
  intros Hfail. unfold GenerateFonts.generate_variants.
  induction (cfg_variants config) as [|nv l IH] using rev_ind.
  { split; [done|]. exists []. by rewrite app_nil_r. }
  rewrite foldl_app. cbn [foldl]. cbv zeta in IH.
  destruct (foldl _ _ l) as [w1 n1]. cbn [fst snd] in *.
  destruct IH as (-> & out & Hout & Hf).
  unfold GenerateFonts.generate_variant.
  destruct (Hfail font
              (resolve_axes (merge_axes (cfg_axes config) nv.2)
                            font_defaults)) as [e ->].
  cbn. split; [done|]. eexists. rewrite Hout, <- !app_assoc.
  split; [done|]. rewrite failed_app, Hf, fmap_app. by cbn.
Qed.

(** C8: whatever the instantiation and save capabilities do, the loop
    starts every variant of the document in order, each variant is
    either counted as a success or reported as failed, and once font
    introspection has succeeded [generate_from_config] ends without an
    exception after printing the success count over the number of
    variants, also when no variant succeeded. *)
Theorem fault_isolation (font : TTFont) (config : Config)
    (output_dir : string) (w : World FS) :
  (∀ font_name font_defaults,
      let r := generate_variants font font_name config font_defaults
                                 output_dir w in
      ∃ out,
        stdout FS r.1 = stdout FS w ++ out
        ∧ attempted out = (cfg_variants config).*1
        ∧ (length (failed out) + r.2 = length (cfg_variants config))%nat)
  ∧ (∀ font_defaults original_font_name,
        extract_font_info toUnicode font
        = inr (font_defaults, original_font_name) →
        ∃ w' out success_count,
          generate_from_config config output_dir font w = (w', None)
          ∧ stdout FS w'
            = stdout FS w ++ out
              ++ [ InfoGenerated success_count
                                 (length (cfg_variants config));
                   InfoSaved output_dir ]
          ∧ attempted out = (cfg_variants config).*1
          ∧ (length (failed out) + success_count
             = length (cfg_variants config))%nat
          ∧ ((∀ f a, ∃ e, instantiateVariableFont f a = inl e) →
             success_count = 0%nat
             ∧ failed out = (cfg_variants config).*1)).
Proof.
  split; [intros; apply generate_variants_outcome|].
  intros font_defaults original_font_name Hinfo.
  unfold GenerateFonts.generate_from_config. rewrite Hinfo.
  set (font_name := if decide (cfg_font_name config = "")
                    then original_font_name else cfg_font_name config).
  set (w0 := print FS InfoVariants _).
  assert (Hw0 : ∃ header, stdout FS w0 = stdout FS w ++ header
                          ∧ attempted header = [] ∧ failed header = []).
  { unfold w0. destruct (decide (original_font_name = font_name)); cbn;
      rewrite <- ?app_assoc; by eexists. }
  destruct Hw0 as (header & Hw0 & Hha & Hhf).
  pose proof (generate_variants_outcome font font_name config font_defaults
                output_dir w0) as Hloop. cbv zeta in Hloop.
  pose proof (generate_variants_all_fail font font_name config font_defaults
                output_dir w0) as Hzero.
  destruct (generate_variants _ _ _ _ _ _) as [w1 success_count].
  cbn [fst snd] in *. destruct Hloop as (out & Hout & Ha & Hf).
  eexists _, (header ++ out), success_count. split; [done|].
  split; [cbn; by rewrite Hout, Hw0, <- !app_assoc|].
  rewrite attempted_app, failed_app, Hha, Hhf. cbn [app].
  split; [done|]. split; [done|].
  intros Hfail. destruct (Hzero Hfail) as (-> & out' & Hout' & Hf').
  split; [done|]. rewrite Hout in Hout'. by apply app_inv_head in Hout' as ->.
Qed.

End Driver.

Lemma fault_isolation_witness :
  let toUnicode := λ _ : FontTools.NameRecord, Py.ret "Demo" in
  let instantiateVariableFont :=
    λ (_ : FontTools.TTFont) (_ : gmap string Qc),
      @Py.raise FontTools.TTFont (Py.ExternalError "axis out of range") in
  let save :=
    λ (_ : FontTools.TTFont) (_ _ : string) (fs : unit),
      (fs, @None Py.exn) in
  let font :=
    {| FontTools.tbl_fvar :=
         Some (FontTools.mk_fvar
                 [FontTools.mkAxis "wght" (Qc_of_Z 100) (Qc_of_Z 400)
                                   (Qc_of_Z 900)] []);
       FontTools.tbl_name := Some [FontTools.mkNameRecord 1 3 1 1033 []];
       FontTools.tbl_OS2 := None; FontTools.tbl_head := None;
       FontTools.tbl_other := ∅ |} in
  let config :=
    {| cfg_schema := "./schema.json"; cfg_file := "Demo.ttf";
       cfg_font_name := ""; cfg_axes := {[ "wght" := None ]};
       cfg_variants := [ ("Regular", {[ "wght" := Qc_of_Z 400 ]});
                         ("Bold", {[ "wght" := Qc_of_Z 700 ]}) ] |} in
  let w := GenerateFonts.mkWorld unit [] tt in
  ∃ w' out,
    GenerateFonts.generate_from_config toUnicode instantiateVariableFont
      unit save config "output" font w = (w', None)
    ∧ GenerateFonts.stdout unit w'
      = out ++ [ GenerateFonts.InfoGenerated 0 2;
                 GenerateFonts.InfoSaved "output" ]
    ∧ attempted out = [ "Regular"; "Bold" ]
    ∧ failed out = [ "Regular"; "Bold" ].
Proof.
  intros toUnicode instantiateVariableFont save font config w.
  destruct (proj2 (fault_isolation toUnicode instantiateVariableFont unit
                     save font config "output" w)
                  {[ "wght" := Qc_of_Z 400 ]} "Demo" eq_refl)
    as (w' & out & success_count & Hrun & Hout & Ha & _ & Hzero).
  destruct Hzero as [-> Hf].
  { intros f a. eexists. reflexivity. }
  exists w', out. split; [exact Hrun|]. split; [exact Hout|].
  split; [exact Ha|exact Hf].
Defined.

(** ** Font introspection *)

Section FamilyName.

Import FontTools.

Variable toUnicode : NameRecord → Py.result string.

Lemma weight_names_get_mem (w : Qc) :
  DumpConfig.weight_names_mem w = true →
  ∃ label, DumpConfig.weight_names_get w = inr label.
Proof.
  unfold DumpConfig.weight_names_mem, DumpConfig.weight_names_get.
  intros (kv & Hin & Hkv)%existsb_exists.
  destruct (List.find _ _) as [kv'|] eqn:E; [by eexists|].
  by rewrite (find_none _ _ E kv Hin) in Hkv.
Qed.

Lemma instance_name_total (i : nat) (coordinates : gmap string Qc) :
  ∃ name, DumpConfig.instance_name i coordinates = inr name.
Proof.
  unfold DumpConfig.instance_name.
  destruct (coordinates !! "wght") as [w|]; [|by eexists].
  destruct (DumpConfig.weight_names_mem w) eqn:E;
    [by apply weight_names_get_mem|].
  destruct (min_nonempty (DumpConfig.distance w) DumpConfig.weight_names_keys)
    as [closest Hmin]; [done|].
  rewrite Hmin. simpl.
  apply min_minimal in Hmin as [Hin _].
  apply weight_names_keys_elem_of in Hin as [label Hlabel].
  destruct (weight_names_exact _ _ Hlabel) as [_ ->]. by eexists.
Qed.

Lemma collect_variants_total (instances : list NamedInstance) (i : nat)
    (variants : list (string * gmap string Qc)) :
  ∃ result, DumpConfig.collect_variants i instances variants = inr result.
Proof.
  revert i variants.
  induction instances as [|instance rest IH]; intros i variants; simpl.
  - by eexists.
  - destruct (instance_name_total i (coordinates instance)) as [name ->].
    simpl. apply IH.
Qed.

Lemma find_family_record_None (names : list NameRecord) :
  (∀ record, record ∈ names →
             ¬ (nameID record = 1 ∧ platformID record = 3
                ∧ platEncID record = 1)) →
  List.find is_family_record names = None.
Proof.
  intros Hnone. destruct (List.find _ _) as [record|] eqn:E; [|done].
  apply find_some in E as [Hin Hrec]. destruct (Hnone record).
  - by apply list_elem_of_In.
  - unfold is_family_record in Hrec.
    apply andb_true_iff in Hrec as [[H1 H2]%andb_true_iff H3].
    by apply bool_decide_eq_true in H1, H2, H3.
Qed.

(** C9, as stated, fails on the dump side: a variable font without a
    Windows Unicode family-name record is accepted, and its family name
    is the stem of the font file's path. *)
Lemma missing_family_name_counterexample :
  let font :=
    {| tbl_fvar := Some (mk_fvar [mkAxis "wght" (Qc_of_Z 100) (Qc_of_Z 400)
                                         (Qc_of_Z 900)] []);
       tbl_name := Some [mkNameRecord 1 1 0 0 []];
       tbl_OS2 := None; tbl_head := None; tbl_other := ∅ |} in
  List.find is_family_record [mkNameRecord 1 1 0 0 []] = None
  ∧ DumpConfig.extract_font_info (λ _, Py.ret "Unused")
      "/fonts/Demo.ttf" "Demo" font
    = inr {| DumpConfig.font_path := "/fonts/Demo.ttf";
             DumpConfig.font_name := "Demo";
             DumpConfig.axes_defaults := {[ "wght" := Qc_of_Z 400 ]};
             DumpConfig.variants := [] |}.
Proof. by vm_compute. Qed.

(** C9, amended: for a font with [fvar] and [name] tables and no name
    record with nameID 1, platformID 3 and platEncID 1, the generate-side
    [extract_font_info] raises the family-name [ValueError]; the
    dump-side [extract_font_info] returns normally and takes the stem of
    the font file's path as the family name. *)
Theorem missing_family_name (font : TTFont) (fvar : table_fvar)
    (names : list NameRecord) :
  tbl_fvar font = Some fvar →
  tbl_name font = Some names →
  (∀ record, record ∈ names →
             ¬ (nameID record = 1 ∧ platformID record = 3
                ∧ platEncID record = 1)) →
  GenerateFonts.extract_font_info toUnicode font
  = inl (Py.ValueError "Could not extract font family name from font file")
  ∧ ∀ font_path_str stem,
      ∃ font_info,
        DumpConfig.extract_font_info toUnicode font_path_str stem font
        = inr font_info
        ∧ DumpConfig.font_name font_info = stem.
Proof.
  intros Hfvar Hnames Hnone%find_family_record_None. split.
  - unfold GenerateFonts.extract_font_info. by rewrite Hfvar, Hnames, Hnone.
  - intros font_path_str stem. unfold DumpConfig.extract_font_info.
    rewrite Hfvar, Hnames, Hnone. simpl.
    destruct (collect_variants_total (instances fvar) 0 []) as [vs ->].
    simpl. by eexists.
Qed.

End FamilyName.

Lemma missing_family_name_witness :
  let font :=
    {| FontTools.tbl_fvar :=
         Some (FontTools.mk_fvar
                 [FontTools.mkAxis "wght" (Qc_of_Z 100) (Qc_of_Z 400)
                                   (Qc_of_Z 900)]
                 [FontTools.mkNamedInstance 258 {[ "wght" := Qc_of_Z 700 ]}]);
       FontTools.tbl_name := Some [FontTools.mkNameRecord 1 1 0 0 []];
       FontTools.tbl_OS2 := None; FontTools.tbl_head := None;
       FontTools.tbl_other := ∅ |} in
  GenerateFonts.extract_font_info (λ _, Py.ret "Unused") font
  = inl (Py.ValueError "Could not extract font family name from font file")
  ∧ ∀ font_path_str stem,
      ∃ font_info,
        DumpConfig.extract_font_info (λ _, Py.ret "Unused")
                                     font_path_str stem font
        = inr font_info
        ∧ DumpConfig.font_name font_info = stem.
Proof.
  intros font.
  apply (missing_family_name (λ _, Py.ret "Unused") font
           (FontTools.mk_fvar
              [FontTools.mkAxis "wght" (Qc_of_Z 100) (Qc_of_Z 400)
                                (Qc_of_Z 900)]
              [FontTools.mkNamedInstance 258 {[ "wght" := Qc_of_Z 700 ]}])
           [FontTools.mkNameRecord 1 1 0 0 []]).
  - reflexivity.
  - reflexivity.
  - intros record Hin (_ & Hp & _).
    apply elem_of_cons in Hin as [->|Hin]; [|by apply elem_of_nil in Hin].
    simpl in Hp. lia.
Defined.

Example instance_name_650 :
  DumpConfig.instance_name 0 {[ "wght" := Qc_of_Z 650 ]} = inr "SemiBold650".
Proof. vm_compute. reflexivity. Qed.

Example instance_name_150 :
  DumpConfig.instance_name 0 {[ "wght" := Qc_of_Z 150 ]} = inr "Thin150".
Proof. vm_compute. reflexivity. Qed.

Example instance_name_3 :
  DumpConfig.instance_name 2 ∅ = inr "Instance3".
Proof. vm_compute. reflexivity. Qed.

Example instance_name_frac :
  DumpConfig.instance_name 0 {[ "wght" := Q2Qc (1301 # 2) ]} = inr "Bold650".
Proof. vm_compute. reflexivity. Qed.

(** * Further properties of the two scripts *)

(** ** Insertion-ordered dictionaries and the variants of a font *)

Section Dict.
Context {V : Type}.
Implicit Types (d : list (string * V)) (k : string) (v : V).

Lemma dict_set_keys d k v :
  (dict_set d k v).*1 = if decide (k ∈ d.*1) then d.*1 else d.*1 ++ [k].
Proof.
  induction d as [|[k' v'] d IH]; cbn [dict_set fmap list_fmap fst].
  - destruct (decide (k ∈ [])) as [H|H]; [by apply elem_of_nil in H|done].
  - destruct (decide (k' = k)) as [->|Hne]; cbn [fmap list_fmap fst].
    + destruct (decide (k ∈ k :: d.*1)) as [H|H]; [done|].
      destruct H. by left.
    + rewrite IH.
      destruct (decide (k ∈ d.*1)) as [Hin|Hnin],
               (decide (k ∈ k' :: d.*1)) as [H|H]; try done.
      * destruct H. by right.
      * apply elem_of_cons in H as [?|?]; done.
Qed.

Lemma dict_set_NoDup d k v : NoDup d.*1 → NoDup (dict_set d k v).*1.
Proof.
  intros Hnd. rewrite dict_set_keys.
  destruct (decide (k ∈ d.*1)) as [Hin|Hin]; [done|].
  apply NoDup_app. split; [done|]. split; [|apply NoDup_singleton].
  intros x Hx ->%list_elem_of_singleton. done.
Qed.

Lemma elem_of_dict_set d k v k' v' :
  NoDup d.*1 →
  (k', v') ∈ dict_set d k v
  ↔ (k' = k ∧ v' = v) ∨ (k' ≠ k ∧ (k', v') ∈ d).
Proof.
  induction d as [|[k0 v0] d IH]; simpl; intros Hnd.
  - rewrite list_elem_of_singleton. split.
    + intros [= -> ->]. by left.
    + intros [[-> ->]|[_ H]]; [done|by apply elem_of_nil in H].
  - apply NoDup_cons in Hnd as [Hk0 Hnd].
    destruct (decide (k0 = k)) as [->|Hne].
    + rewrite !elem_of_cons. split.
      * intros [[= -> ->]|Hin]; [by left|]. right. split; [|by right].
        intros ->. apply Hk0. apply list_elem_of_fmap. by exists (k, v').
      * intros [[-> ->]|[Hne [[= ? ?]|Hin]]]; [by left|done|by right].
    + rewrite !elem_of_cons, IH by done. split.
      * intros [[= -> ->]|[[-> ->]|[Hne' Hin]]].
        -- right. split; [done|by left].
        -- by left.
        -- right. split; [done|by right].
      * intros [[-> ->]|[Hne' [[= -> ->]|Hin]]].
        -- right. by left.
        -- by left.
        -- right. right. done.
Qed.
End Dict.

Section Variants.
Import FontTools DumpConfig.

Lemma collect_variants_spec (instances : list NamedInstance) (i0 : nat)
    (acc vs : list (string * gmap string Qc)) :
  collect_variants i0 instances acc = inr vs →
  NoDup acc.*1 →
  NoDup vs.*1
  ∧ ∀ name c,
      (name, c) ∈ vs
      ↔ (∃ j instance,
            instances !! j = Some instance
            ∧ instance_name (i0 + j) (coordinates instance) = inr name
            ∧ coordinates instance = c
            ∧ ∀ j' instance',
                (j < j')%nat → instances !! j' = Some instance' →
                instance_name (i0 + j') (coordinates instance') ≠ inr name)
        ∨ ((∀ j instance,
               instances !! j = Some instance →
               instance_name (i0 + j) (coordinates instance) ≠ inr name)
           ∧ (name, c) ∈ acc).
Proof.
  revert i0 acc.
  induction instances as [|instance rest IH]; intros i0 acc Hrun Hnd.
  - injection Hrun as <-. split; [done|]. intros name c. split.
    + intros Hin. right. split; [|done]. intros j instance Hj.
      by rewrite lookup_nil in Hj.
    + intros [(j & instance & Hj & _)|[_ Hin]]; [|done].
      by rewrite lookup_nil in Hj.
  - cbn [collect_variants] in Hrun.
    destruct (instance_name i0 (coordinates instance)) as [e|n0] eqn:Hn0;
      [done|].
    cbn [Py.bind] in Hrun.
    destruct (IH _ _ Hrun (dict_set_NoDup _ _ _ Hnd)) as [Hnd' Hvs].
    split; [done|]. intros name c. rewrite Hvs. clear Hvs.
    rewrite elem_of_dict_set by done. split.
    + intros [(j & inst & Hj & Hname & Hc & Hlast)|[Hnone Hacc]].
      * left. exists (S j), inst. split; [done|].
        rewrite Nat.add_succ_r. split; [done|]. split; [done|].
        intros [|j'] inst' Hlt Hj'; [lia|]. rewrite Nat.add_succ_r.
        apply Hlast; [lia|done].
      * destruct Hacc as [[-> ->]|[Hne Hacc]].
        -- left. exists 0%nat, instance. rewrite Nat.add_0_r.
           split; [done|]. split; [done|]. split; [done|].
           intros [|j'] inst' Hlt Hj'; [lia|]. rewrite Nat.add_succ_r.
           by apply Hnone.
        -- right. split; [|done]. intros [|j] inst Hj.
           ++ injection Hj as <-. rewrite Nat.add_0_r, Hn0. congruence.
           ++ rewrite Nat.add_succ_r. by apply Hnone.
    + intros [(j & inst & Hj & Hname & Hc & Hlast)|[Hnone Hacc]].
      * destruct j as [|j].
        -- injection Hj as <-. rewrite Nat.add_0_r, Hn0 in Hname.
           injection Hname as ->. right. split.
           ++ intros j' inst' Hj'. specialize (Hlast (S j') inst').
              rewrite Nat.add_succ_r in Hlast. apply Hlast; [lia|done].
           ++ by left.
        -- left. exists j, inst. split; [done|].
           rewrite Nat.add_succ_r in Hname. split; [done|]. split; [done|].
           intros j' inst' Hlt Hj'. specialize (Hlast (S j') inst').
           rewrite Nat.add_succ_r in Hlast. apply Hlast; [lia|done].
      * right. split.
        -- intros j inst Hj. specialize (Hnone (S j) inst Hj).
           by rewrite Nat.add_succ_r in Hnone.
        -- right. split; [|done]. intros ->.
           specialize (Hnone 0%nat instance eq_refl).
           by rewrite Nat.add_0_r in Hnone.
Qed.
End Variants.

Section DumpIntrospection.
Import FontTools DumpConfig.
Variable toUnicode : NameRecord → Py.result string.

Lemma dump_extract_font_info_inv (font_path_str stem : string)
    (font : TTFont) (font_info : FontInfo) :
  extract_font_info toUnicode font_path_str stem font = inr font_info →
  ∃ fvar names,
    tbl_fvar font = Some fvar ∧ tbl_name font = Some names
    ∧ font_path font_info = font_path_str
    ∧ axes_defaults font_info = axis_defaults_of (axes fvar)
    ∧ collect_variants 0 (instances fvar) [] = inr (variants font_info)
    ∧ match List.find is_family_record names with
      | Some record =>
          ∃ s, toUnicode record = inr s
               ∧ font_name font_info = if decide (s = "") then stem else s
      | None => font_name font_info = stem
      end.
Proof.
  unfold extract_font_info.
  destruct (tbl_fvar font) as [fvar|]; [|done].
  destruct (tbl_name font) as [names|]; [|done].
  intros Hrun. exists fvar, names. split; [done|]. split; [done|].
  destruct (List.find is_family_record names) as [record|].
  - destruct (toUnicode record) as [e|s]; [done|]. cbn [Py.bind Py.ret] in Hrun.
    destruct (collect_variants 0 (instances fvar) []) as [e|vs]; [done|].
    cbn [Py.bind Py.ret] in Hrun. injection Hrun as <-. cbn.
    repeat (split; [done|]). exists s. split; [done|].
    destruct s; [done|]. by rewrite decide_False.
  - cbn [Py.bind Py.ret] in Hrun.
    destruct (collect_variants 0 (instances fvar) []) as [e|vs]; [done|].
    cbn [Py.bind Py.ret] in Hrun. injection Hrun as <-. by cbn.
Qed.

(** X1: the variants of the font information have pairwise distinct names,
    and the variant stored under a name is the last instance of the font
    whose derived name it is. *)
Theorem variants_last_instance_wins (font_path_str stem : string)
    (font : TTFont) (fvar : table_fvar) (font_info : FontInfo) :
  extract_font_info toUnicode font_path_str stem font = inr font_info →
  tbl_fvar font = Some fvar →
  NoDup (variants font_info).*1
  ∧ ∀ name coords,
      (name, coords) ∈ variants font_info
      ↔ ∃ j instance,
          instances fvar !! j = Some instance
          ∧ instance_name j (coordinates instance) = inr name
          ∧ coordinates instance = coords
          ∧ ∀ j' instance',
              (j < j')%nat → instances fvar !! j' = Some instance' →
              instance_name j' (coordinates instance') ≠ inr name.
Proof.
  intros (fvar' & names & Hfvar & _ & _ & _ & Hvs & _)%dump_extract_font_info_inv
         Hfvar'.
  rewrite Hfvar' in Hfvar. injection Hfvar as <-.
  destruct (collect_variants_spec _ _ _ _ Hvs) as [Hnd Hin];
    [apply NoDup_nil_2|].
  split; [done|]. intros name coords. rewrite Hin. split.
  - intros [H|[_ H]]; [done|by apply elem_of_nil in H].
  - intros H. by left.
Qed.

(** X2: instances that share a [wght] coordinate get the same name, so the
    font information has fewer variants than the font has instances. *)
Theorem same_weight_instances_collide (font_path_str stem : string)
    (font : TTFont) (fvar : table_fvar) (font_info : FontInfo)
    (j1 j2 : nat) (instance1 instance2 : NamedInstance) (w : Qc) :
  extract_font_info toUnicode font_path_str stem font = inr font_info →
  tbl_fvar font = Some fvar →
  instances fvar !! j1 = Some instance1 →
  instances fvar !! j2 = Some instance2 →
  (j1 < j2)%nat →
  coordinates instance1 !! "wght" = Some w →
  coordinates instance2 !! "wght" = Some w →
  instance_name j1 (coordinates instance1)
  = instance_name j2 (coordinates instance2)
  ∧ (length (variants font_info) < length (instances fvar))%nat.
Proof.
  intros (fvar' & names & Hfvar & _ & _ & _ & Hvs & _)%dump_extract_font_info_inv
         Hfvar' Hj1 Hj2 Hlt Hw1 Hw2.
  rewrite Hfvar' in Hfvar. injection Hfvar as <-.
  assert (Hsame : instance_name j1 (coordinates instance1)
                  = instance_name j2 (coordinates instance2)).
  { unfold instance_name. by rewrite Hw1, Hw2. }
  split; [done|].
  destruct (collect_variants_spec _ _ _ _ Hvs) as [Hnd Hin];
    [apply NoDup_nil_2|].
  set (nm := λ (j : nat) (instance : NamedInstance),
               match instance_name j (coordinates instance) with
               | inr n => n
               | inl _ => ""
               end).
  assert (Hsub : (variants font_info).*1
                 ⊆+ delete j1 (imap nm (instances fvar))).
  { apply NoDup_submseteq; [done|]. intros name Hname.
    apply list_elem_of_fmap in Hname as ([name' c] & -> & Hc).
    apply Hin in Hc as [(j & inst & Hj & Hn & _ & Hlast)|[_ Hc]];
      [|by apply elem_of_nil in Hc].
    cbn [fst]. assert (j ≠ j1) as Hne.
    { intros ->. rewrite Hj1 in Hj. injection Hj as <-.
      apply (Hlast j2 instance2 Hlt Hj2).
      exact (eq_trans (eq_sym Hsame) Hn). }
    apply list_elem_of_lookup.
    exists (if decide (j < j1)%nat then j else pred j).
    rewrite list_lookup_delete.
    assert (Hnm : imap nm (instances fvar) !! j = Some name').
    { rewrite list_lookup_imap, Hj. cbn. unfold nm.
      change (0 + j)%nat with j in Hn. by rewrite Hn. }
    destruct (decide (j < j1)%nat) as [Hlt'|Hge].
    - by rewrite decide_True.
    - rewrite decide_False by lia.
      replace (S (pred j)) with j by lia. done. }
  apply submseteq_length in Hsub. rewrite length_fmap in Hsub.
  rewrite length_delete in Hsub.
  - rewrite length_imap in Hsub.
    apply lookup_lt_Some in Hj1. lia.
  - rewrite list_lookup_imap, Hj1. by eexists.
Qed.

End DumpIntrospection.

(** ** The nearest canonical weight *)

Section NearestWeight.
Import DumpConfig.
Local Open Scope Qc_scope.

Lemma weight_names_keys_spaced (k a : Z) :
  k ∈ weight_names_keys → a ∈ weight_names_keys → (k < a)%Z →
  (k + 100 ≤ a)%Z ∧ (100 ≤ k)%Z ∧ (a ≤ 900)%Z.
Proof.
  unfold weight_names_keys, weight_names. cbn [fmap list_fmap fst].
  intros Hk Ha.
  repeat (apply elem_of_cons in Hk as [->|Hk]);
    [..|by apply elem_of_nil in Hk];
    repeat (apply elem_of_cons in Ha as [->|Ha]);
    try (by apply elem_of_nil in Ha); lia.
Qed.

Lemma min_first_minimizer_intro (w : Qc) (a : Z) :
  a ∈ weight_names_keys →
  (∀ k, k ∈ weight_names_keys → (k < a)%Z → distance w a < distance w k) →
  (∀ k, k ∈ weight_names_keys → distance w a ≤ distance w k) →
  Py.min weight_names_keys (distance w) = inr a.
Proof.
  intros Ha Hbefore Hmin.
  destruct (min_nonempty (distance w) weight_names_keys) as [r Hr]; [done|].
  rewrite Hr. f_equal.
  destruct (min_minimal _ _ _ Hr) as [Hrin Hrle].
  assert (r ≤ a)%Z as Hra.
  { eapply min_lowest_minimizer; [done..|]. by apply Hmin. }
  destruct (decide (r = a)) as [|Hne]; [done|]. exfalso.
  assert (r < a)%Z as Hlt by lia.
  apply (Qclt_not_le _ _ (Hbefore r Hrin Hlt)). by apply Hrle.
Qed.

Lemma distance_lt_lower (w : Qc) (k a : Z) :
  (k + 100 ≤ a)%Z → Qc_of_Z (a - 50) < w → distance w a < distance w k.
Proof.
  intros Hka Hw. unfold Qclt, distance in *. rewrite !distance_this.
  change (this (Qc_of_Z (a - 50))) with (inject_Z (a - 50)) in Hw.
  rewrite Zle_Qle, inject_Z_plus in Hka.
  unfold Z.sub in Hw. rewrite inject_Z_plus in Hw.
  change (inject_Z 100) with (100 # 1)%Q in Hka.
  rewrite inject_Z_opp in Hw. change (inject_Z 50) with (50 # 1)%Q in Hw.
  apply (Qabs_case (inject_Z a - this w));
    apply (Qabs_case (inject_Z k - this w)); intros; lra.
Qed.

Lemma distance_le_upper (w : Qc) (k a : Z) :
  (a + 100 ≤ k)%Z → w ≤ Qc_of_Z (a + 50) → distance w a ≤ distance w k.
Proof.
  intros Hka Hw. unfold Qcle, distance in *. rewrite !distance_this.
  change (this (Qc_of_Z (a + 50))) with (inject_Z (a + 50)) in Hw.
  rewrite Zle_Qle, inject_Z_plus in Hka.
  rewrite inject_Z_plus in Hw.
  change (inject_Z 100) with (100 # 1)%Q in Hka.
  change (inject_Z 50) with (50 # 1)%Q in Hw.
  apply (Qabs_case (inject_Z a - this w));
    apply (Qabs_case (inject_Z k - this w)); intros; lra.
Qed.

(** X3: the canonical weight chosen for a coordinate [w] is the one whose
    half-open interval [(a - 50, a + 50]] holds [w]; coordinates up to 150
    go to 100 and coordinates above 850 go to 900. *)
Theorem nearest_weight_interval (w : Qc) (a : Z) :
  a ∈ weight_names_keys →
  (a = 100%Z ∨ Qc_of_Z (a - 50) < w) →
  (a = 900%Z ∨ w ≤ Qc_of_Z (a + 50)) →
  Py.min weight_names_keys (distance w) = inr a
  ∧ ∀ i coordinates,
      coordinates !! "wght" = Some w →
      (∀ k, k ∈ weight_names_keys → Qc_of_Z k ≠ w) →
      ∃ label,
        (a, label) ∈ weight_names
        ∧ instance_name i coordinates
          = inr (label +:+ Py.str_of_int (Py.int w)).
Proof.
  intros Ha Hlow Hhigh.
  assert (Hmin : Py.min weight_names_keys (distance w) = inr a).
  { assert (Hbefore : ∀ k, k ∈ weight_names_keys → (k < a)%Z →
                           distance w a < distance w k).
    { intros k Hk Hlt.
      destruct (weight_names_keys_spaced k a Hk Ha Hlt) as (H1 & H2 & _).
      destruct Hlow as [->|Hlow]; [lia|]. by apply distance_lt_lower. }
    apply min_first_minimizer_intro; [done..|].
    intros k Hk. destruct (Z.lt_trichotomy k a) as [Hlt|[->|Hgt]].
    - by apply Qclt_le_weak, Hbefore.
    - apply Qcle_refl.
    - destruct (weight_names_keys_spaced a k Ha Hk Hgt) as (H1 & _ & H3).
      destruct Hhigh as [->|Hhigh]; [lia|]. by apply distance_le_upper. }
  split; [done|]. intros i coordinates Hw Hne.
  apply weight_names_keys_elem_of in Ha as [label Hlabel].
  exists label. split; [done|]. by eapply not_exact_instance_name.
Qed.

End NearestWeight.

(** ** Axis defaults and the two introspections *)

Section AxisDefaults.
Import FontTools.

Lemma axis_defaults_of_snoc (axes : list Axis) (axis : Axis) :
  axis_defaults_of (axes ++ [axis])
  = <[axisTag axis := defaultValue axis]> (axis_defaults_of axes).
Proof. unfold axis_defaults_of. by rewrite foldl_app. Qed.

Lemma lookup_axis_defaults_of (axes : list Axis) (tag : string) :
  axis_defaults_of axes !! tag
  = defaultValue <$> last (filter (λ axis, axisTag axis = tag) axes).
Proof.
  induction axes as [|axis axes IH] using rev_ind; [done|].
  rewrite axis_defaults_of_snoc, filter_app.
  destruct (decide (axisTag axis = tag)) as [<-|Hne].
  - rewrite lookup_insert_eq, filter_cons_True by done.
    by rewrite filter_nil, last_snoc.
  - rewrite lookup_insert_ne, filter_cons_False by done.
    by rewrite filter_nil, app_nil_r.
Qed.

Lemma axis_defaults_dom (axes : list Axis) (tag : string) :
  tag ∈ dom (axis_defaults_of axes) ↔ tag ∈ axisTag <$> axes.
Proof.
  rewrite elem_of_dom, lookup_axis_defaults_of, list_elem_of_fmap. split.
  - intros [v Hv]. destruct (last _) as [axis|] eqn:E; [|done].
    apply last_Some_elem_of, list_elem_of_filter in E as [<- Hin].
    by exists axis.
  - intros (axis & -> & Hin).
    destruct (last _) as [axis'|] eqn:E; [by eexists|].
    apply last_None in E.
    assert (Hmem : axis ∈ filter (λ a, axisTag a = axisTag axis) axes)
      by by apply list_elem_of_filter.
    rewrite E in Hmem. by apply elem_of_nil in Hmem.
Qed.

(** X4: the default recorded for a tag is that of the last axis of [fvar]
    with this tag, and a tag has a default exactly when some axis has
    it. *)
Theorem axis_defaults_last_axis (axes : list Axis) (tag : string) :
  axis_defaults_of axes !! tag
  = defaultValue <$> last (filter (λ axis, axisTag axis = tag) axes)
  ∧ (tag ∈ dom (axis_defaults_of axes) ↔ tag ∈ axisTag <$> axes).
Proof. split; [apply lookup_axis_defaults_of|apply axis_defaults_dom]. Qed.

End AxisDefaults.

Section Pipelines.
Import FontTools.
Variable toUnicode : NameRecord → Py.result string.

(** X5: the dump-side introspection succeeds exactly on a font with an
    [fvar] table and a [name] table whose first family-name record, if
    there is one, decodes: naming the instances never raises. The family
    name is the decoded record, or the stem of the file name when there
    is no such record or it decodes to the empty string. *)
Theorem dump_extract_font_info_succeeds (font_path_str stem : string)
    (font : TTFont) :
  ((∃ font_info,
       DumpConfig.extract_font_info toUnicode font_path_str stem font
       = inr font_info)
   ↔ ∃ fvar names,
       tbl_fvar font = Some fvar ∧ tbl_name font = Some names
       ∧ ∀ record,
           List.find is_family_record names = Some record →
           ∃ s, toUnicode record = inr s)
  ∧ ∀ font_info names,
      DumpConfig.extract_font_info toUnicode font_path_str stem font
      = inr font_info →
      tbl_name font = Some names →
      DumpConfig.font_name font_info
      = match List.find is_family_record names with
        | Some record =>
            match toUnicode record with
            | inr s => if decide (s = "") then stem else s
            | inl _ => stem
            end
        | None => stem
        end.
Proof.
  split; [split|].
  - intros [font_info Hrun].
    apply dump_extract_font_info_inv in Hrun
      as (fvar & names & Hfvar & Hnames & _ & _ & _ & Hfind).
    exists fvar, names. split; [done|]. split; [done|].
    intros record Hrec. rewrite Hrec in Hfind.
    destruct Hfind as (s & Hs & _). by exists s.
  - intros (fvar & names & Hfvar & Hnames & Hdec).
    unfold DumpConfig.extract_font_info. rewrite Hfvar, Hnames.
    destruct (collect_variants_total (instances fvar) 0 []) as [vs Hvs].
    destruct (List.find is_family_record names) as [record|].
    + destruct (Hdec record eq_refl) as [s ->]. cbn [Py.bind Py.ret].
      rewrite Hvs. by eexists.
    + cbn [Py.bind Py.ret]. rewrite Hvs. by eexists.
  - intros font_info names Hrun Hnames.
    apply dump_extract_font_info_inv in Hrun
      as (fvar & names' & _ & Hnames' & _ & _ & _ & Hfind).
    rewrite Hnames in Hnames'. injection Hnames' as <-.
    destruct (List.find is_family_record names) as [record|]; [|done].
    by destruct Hfind as (s & -> & ->).
Qed.

(** X6: a font the generator's introspection accepts is accepted by the
    dump side too, with the same axis defaults and, unless the decoded
    family name is empty, the same family name. *)
Theorem pipelines_agree (font_path_str stem : string) (font : TTFont)
    (font_defaults : gmap string Qc) (original_font_name : string) :
  GenerateFonts.extract_font_info toUnicode font
  = inr (font_defaults, original_font_name) →
  ∃ font_info,
    DumpConfig.extract_font_info toUnicode font_path_str stem font
    = inr font_info
    ∧ DumpConfig.axes_defaults font_info = font_defaults
    ∧ DumpConfig.font_name font_info
      = (if decide (original_font_name = "") then stem
         else original_font_name).
Proof.
  unfold GenerateFonts.extract_font_info, DumpConfig.extract_font_info.
  destruct (tbl_fvar font) as [fvar|]; [|done].
  destruct (tbl_name font) as [names|]; [|done].
  destruct (List.find is_family_record names) as [record|]; [|done].
  destruct (toUnicode record) as [e|s]; [done|]. cbn [Py.bind Py.ret].
  intros [= <- <-].
  destruct (collect_variants_total (instances fvar) 0 []) as [vs ->].
  cbn [Py.bind Py.ret]. eexists. split; [done|]. cbn.
  split; [done|]. destruct s; [done|]. by rewrite decide_False.
Qed.

End Pipelines.

(** ** The overrides of the document *)

Section Document.
Import DumpConfig.

Lemma dict_get_cfg_axes (font_info : FontInfo) (axis_tag : string) (v : Qc) :
  dict_get (cfg_axes (create_config_structure font_info)) axis_tag = Some v
  ↔ axis_tag ∈ dom (axes_defaults font_info)
    ∧ global_value (axis_values axis_tag (variants font_info)) = Some v.
Proof.
  unfold dict_get. rewrite lookup_cfg_axes.
  destruct (decide (axis_tag ∈ dom _)) as [Hin|Hnin]; split.
  - by intros ->.
  - by intros [_ ->].
  - done.
  - by intros [? _].
Qed.

(** X7: the override stored for an instance holds exactly the coordinates
    the instance declares that are not hoisted: an entry is left out only
    when its tag is one of the font's axes and every instance declaring
    that axis has the same value. *)
Theorem override_exactly_not_hoisted (font_info : FontInfo) (n : nat)
    (name : string) (coords : gmap string Qc) (axis_tag : string) :
  variants font_info !! n = Some (name, coords) →
  ∃ override,
    cfg_variants (create_config_structure font_info) !! n
    = Some (name, override)
    ∧ override ⊆ coords
    ∧ ∀ v : Qc,
        override !! axis_tag = Some v
        ↔ coords !! axis_tag = Some v
          ∧ ¬ (axis_tag ∈ dom (axes_defaults font_info)
               ∧ ∀ name' coords' x,
                   (name', coords') ∈ variants font_info →
                   coords' !! axis_tag = Some x → x = v).
Proof.
  intros Hn. eexists. split.
  { by rewrite lookup_cfg_variants, Hn. }
  cbn [fst snd]. split; [apply map_filter_subseteq|].
  intros v. rewrite lookup_optimized_variant. split.
  - intros [Hc Hne]. split; [done|]. intros [Hdom Hall]. apply Hne.
    apply dict_get_cfg_axes. split; [done|]. apply global_value_agree.
    + intros Hnil.
      assert (Hv : v ∈ axis_values axis_tag (variants font_info)).
      { apply elem_of_axis_values. exists name, coords.
        split; [|done]. by eapply list_elem_of_lookup_2. }
      rewrite Hnil in Hv. by apply elem_of_nil in Hv.
    + intros x (name' & coords' & Hin & Hx)%elem_of_axis_values.
      by eapply Hall.
  - intros [Hc Hnot]. split; [done|].
    intros [Hdom [_ Hall]%global_value_Some]%dict_get_cfg_axes.
    apply Hnot. split; [done|]. intros name' coords' x Hin Hx.
    apply Hall, elem_of_axis_values. by exists name', coords'.
Qed.

(** X8: an instance that declares exactly the font's axes is resolved, from
    the document built for the font, to exactly its own coordinates. *)
Theorem dense_instance_round_trip (font_info : FontInfo) (n : nat)
    (name : string) (coords : gmap string Qc) :
  variants font_info !! n = Some (name, coords) →
  dom coords = dom (axes_defaults font_info) →
  ∃ override,
    cfg_variants (create_config_structure font_info) !! n
    = Some (name, override)
    ∧ GenerateFonts.resolve_axes
        (GenerateFonts.merge_axes
           (cfg_axes (create_config_structure font_info)) override)
        (axes_defaults font_info)
      = coords.
Proof.
  intros Hn Hdom. eexists. split.
  { by rewrite lookup_cfg_variants, Hn. }
  cbn [fst snd]. apply map_eq. intros tag.
  destruct (resolve_document_variant font_info n name coords tag Hn)
    as [_ Hres].
  etrans; [exact Hres|].
  destruct (axes_defaults font_info !! tag) as [d|] eqn:Hd.
  - assert (tag ∈ dom coords) as [v Hv]%elem_of_dom.
    { rewrite Hdom. apply elem_of_dom. by eexists. }
    by rewrite Hv.
  - symmetry. apply not_elem_of_dom. rewrite Hdom. by apply not_elem_of_dom.
Qed.

(** X9: for an axis of the font that an instance does not declare, the
    document resolves the instance to the value shared by all instances
    that declare the axis, and to the font's default when they disagree or
    none declares it. *)
Theorem sparse_instance_inherits (font_info : FontInfo) (n : nat)
    (name : string) (coords : gmap string Qc) (axis_tag : string)
    (default_value : Qc) :
  variants font_info !! n = Some (name, coords) →
  coords !! axis_tag = None →
  axes_defaults font_info !! axis_tag = Some default_value →
  ∃ override,
    cfg_variants (create_config_structure font_info) !! n
    = Some (name, override)
    ∧ GenerateFonts.resolve_axes
        (GenerateFonts.merge_axes
           (cfg_axes (create_config_structure font_info)) override)
        (axes_defaults font_info) !! axis_tag
      = Some (match global_value
                      (axis_values axis_tag (variants font_info)) with
              | Some shared => shared
              | None => default_value
              end)
    ∧ (∀ shared : Qc,
          global_value (axis_values axis_tag (variants font_info))
          = Some shared
          ↔ (∃ name' coords',
                (name', coords') ∈ variants font_info
                ∧ is_Some (coords' !! axis_tag))
            ∧ ∀ name' coords' x,
                (name', coords') ∈ variants font_info →
                coords' !! axis_tag = Some x → x = shared).
Proof.
  intros Hn Hc Hd. eexists. split.
  { by rewrite lookup_cfg_variants, Hn. }
  cbn [fst snd].
  destruct (resolve_document_variant font_info n name coords axis_tag Hn)
    as [_ Hres].
  split.
  { etrans; [exact Hres|]. rewrite Hd, Hc.
    by destruct (global_value _). }
  intros shared. split.
  - intros [Hne Hall]%global_value_Some. split.
    + destruct (axis_values axis_tag (variants font_info)) as [|x l] eqn:E;
        [done|].
      assert (Hx : x ∈ axis_values axis_tag (variants font_info))
        by (rewrite E; by left).
      apply elem_of_axis_values in Hx as (name' & coords' & Hin & Hx).
      exists name', coords'. split; [done|]. by eexists.
    + intros name' coords' x Hin Hx.
      apply Hall, elem_of_axis_values. by exists name', coords'.
  - intros [(name' & coords' & Hin & [x Hx]) Hall].
    apply global_value_agree.
    + intros Hnil.
      assert (Hx' : x ∈ axis_values axis_tag (variants font_info)).
      { apply elem_of_axis_values. by exists name', coords'. }
      rewrite Hnil in Hx'. by apply elem_of_nil in Hx'.
    + intros y (name2 & coords2 & Hin2 & Hy)%elem_of_axis_values.
      by eapply Hall.
Qed.

End Document.

Section Resolver.
Import GenerateFonts.

(** X10: the resolved axes are the font's axes that the document's [axes] or
    the variant mention: the resolver never outputs an axis the font does
    not have, and never invents one that neither mapping names. *)
Theorem resolved_axes_dom (global_axes : gmap string (option Qc))
    (variant_config font_defaults : gmap string Qc) :
  dom (resolve_axes (merge_axes global_axes variant_config) font_defaults)
  = dom font_defaults ∩ (dom global_axes ∪ dom variant_config).
Proof.
  apply set_eq. intros axis.
  rewrite elem_of_intersection, elem_of_union, !elem_of_dom.
  rewrite lookup_resolve_merge.
  destruct (font_defaults !! axis) as [d|]; [|split; [by intros [? ?]|]].
  - destruct (variant_config !! axis) as [v|].
    { split; [|by eexists]. intros _. split; by eauto. }
    destruct (global_axes !! axis) as [[g|]|].
    + split; [|by eexists]. intros _. split; by eauto.
    + split; [|by eexists]. intros _. split; by eauto.
    + split; [by intros [? ?]|]. by intros [_ [[? ?]|[? ?]]].
  - by intros [[? ?] _].
Qed.

(** X11: resolving is stable: resolved axes fed back as a variant's override
    resolve to themselves. *)
Theorem resolve_axes_stable (global_axes : gmap string (option Qc))
    (variant_config font_defaults : gmap string Qc) :
  let resolved_axes :=
    resolve_axes (merge_axes global_axes variant_config) font_defaults in
  resolve_axes (merge_axes global_axes resolved_axes) font_defaults
  = resolved_axes.
Proof.
  intros resolved_axes. apply map_eq. intros axis.
  rewrite lookup_resolve_merge. unfold resolved_axes.
  rewrite lookup_resolve_merge.
  destruct (font_defaults !! axis) as [d|]; [|done].
  destruct (variant_config !! axis) as [v|]; [done|].
  by destruct (global_axes !! axis) as [[g|]|].
Qed.

End Resolver.

(** ** Names written to the font *)

Section Strings.

Lemma list_ascii_of_string_app (s1 s2 : string) :
  list_ascii_of_string (s1 +:+ s2)
  = list_ascii_of_string s1 ++ list_ascii_of_string s2.
Proof. induction s1 as [|c s1 IH]; [done|]. simpl. by f_equal. Qed.

Lemma list_ascii_of_string_inj (s1 s2 : string) :
  list_ascii_of_string s1 = list_ascii_of_string s2 → s1 = s2.
Proof.
  intros H. rewrite <- (string_of_list_ascii_of_string s1),
    <- (string_of_list_ascii_of_string s2). by rewrite H.
Qed.

Lemma string_app_inv_tail (s1 s2 s : string) :
  s1 +:+ s = s2 +:+ s → s1 = s2.
Proof.
  intros H. apply list_ascii_of_string_inj.
  apply (f_equal list_ascii_of_string) in H.
  rewrite !list_ascii_of_string_app in H. by apply app_inv_tail in H.
Qed.

Lemma string_app_inv_head (s s1 s2 : string) :
  s +:+ s1 = s +:+ s2 → s1 = s2.
Proof.
  intros H. apply list_ascii_of_string_inj.
  apply (f_equal list_ascii_of_string) in H.
  rewrite !list_ascii_of_string_app in H. by apply app_inv_head in H.
Qed.

Lemma string_app_assoc (s1 s2 s3 : string) :
  (s1 +:+ s2) +:+ s3 = s1 +:+ s2 +:+ s3.
Proof.
  induction s1 as [|c s1 IH]; [done|].
  change (String c ((s1 +:+ s2) +:+ s3) = String c (s1 +:+ s2 +:+ s3)).
  by rewrite IH.
Qed.

End Strings.

Section Names.
Import FontTools GenerateFonts.

(** X12: the PostScript name has a space exactly when the variant name has
    one: spaces are removed from the family name only. *)
Theorem ps_name_spaces (font_name variant_name : string) :
  " "%char ∈ list_ascii_of_string (ps_name font_name variant_name)
  ↔ " "%char ∈ list_ascii_of_string variant_name.
Proof.
  unfold ps_name. rewrite !list_ascii_of_string_app, remove_spaces_filter.
  rewrite !elem_of_app, list_elem_of_filter. cbn.
  rewrite list_elem_of_singleton. split.
  - intros [[Hne _]|[Heq|Hin]]; [done|discriminate Heq|done].
  - intros Hin. by do 2 right.
Qed.

(** The output file name determines the variant name. *)
Lemma output_filename_inj (font_name variant_name1 variant_name2 : string) :
  Py.remove_spaces font_name +:+ "-" +:+ variant_name1 +:+ ".ttf"
  = Py.remove_spaces font_name +:+ "-" +:+ variant_name2 +:+ ".ttf" →
  variant_name1 = variant_name2.
Proof.
  intros H. apply string_app_inv_head in H. apply string_app_inv_head in H.
  by apply string_app_inv_tail in H.
Qed.

Lemma update_record_update_record (font_name1 variant_name1 font_name2
    variant_name2 : string) (record : NameRecord) :
  update_record font_name2 variant_name2
    (update_record font_name1 variant_name1 record)
  = update_record font_name2 variant_name2 record.
Proof.
  destruct record as [nid pid eid lid str]. unfold update_record. cbn.
  repeat (case_bool_decide; cbn; try done).
Qed.

Lemma update_macStyle_update_macStyle (w1 w2 : Qc) (macStyle : Z) :
  update_macStyle w2 (update_macStyle w1 macStyle)
  = update_macStyle w2 macStyle.
Proof.
  apply Z.bits_inj. intros i. destruct (decide (i = 0)) as [->|Hi].
  - by rewrite !testbit_0_update_macStyle.
  - by rewrite !testbit_other_update_macStyle.
Qed.

(** X14: renaming twice is renaming once with the last names and axes: what
    an earlier call wrote is overwritten and nothing else is kept from
    it. *)
Theorem update_font_names_last_wins (font font1 : TTFont)
    (font_name1 variant_name1 font_name2 variant_name2 : string)
    (axes1 axes2 : gmap string Qc) :
  update_font_names font font_name1 variant_name1 axes1 = inr font1 →
  update_font_names font1 font_name2 variant_name2 axes2
  = update_font_names font font_name2 variant_name2 axes2.
Proof.
  unfold update_font_names.
  destruct (tbl_name font) as [names|]; [|done]. intros [= <-].
  cbn [tbl_fvar tbl_name tbl_OS2 tbl_head tbl_other]. unfold Py.ret.
  do 2 f_equal.
  - f_equal. rewrite <- list_fmap_compose. apply list_fmap_ext.
    intros i record _. apply update_record_update_record.
  - by destruct (tbl_OS2 font).
  - destruct (tbl_head font) as [head|]; [|done]. cbn.
    unfold set_macStyle. cbn. by rewrite update_macStyle_update_macStyle.
Qed.

Lemma update_macStyle_range (weight_value : Qc) (macStyle : Z) :
  (0 ≤ macStyle < 2 ^ 16)%Z →
  (0 ≤ update_macStyle weight_value macStyle < 2 ^ 16)%Z.
Proof.
  intros [Hlo Hhi].
  assert (Hnn : (0 ≤ update_macStyle weight_value macStyle)%Z).
  { unfold update_macStyle. destruct (decide _).
    - apply Z.lor_nonneg. lia.
    - apply Z.land_nonneg. by left. }
  split; [done|].
  destruct (decide (update_macStyle weight_value macStyle = 0)) as [->|Hnz];
    [done|].
  apply Z.log2_lt_pow2; [lia|].
  destruct (decide (Z.log2 (update_macStyle weight_value macStyle) < 16)%Z)
    as [|Hge]; [done|]. exfalso.
  pose proof (Z.bit_log2 (update_macStyle weight_value macStyle)
                ltac:(lia)) as Hbit.
  rewrite testbit_other_update_macStyle in Hbit by lia.
  destruct (decide (macStyle = 0)) as [->|Hm].
  - by rewrite Z.bits_0 in Hbit.
  - rewrite Z.bits_above_log2 in Hbit; [done|lia|].
    assert (Z.log2 macStyle < 16)%Z by (apply Z.log2_lt_pow2; lia). lia.
Qed.

(** X15: the header fields written by [update_font_names] stay in range: a
    16-bit [macStyle] stays a 16-bit value, and [usWeightClass] lies in
    any integer interval, from zero up, that holds the [wght] value. *)
Theorem update_font_names_ranges (font font' : TTFont)
    (font_name variant_name : string) (axes : gmap string Qc) :
  update_font_names font font_name variant_name axes = inr font' →
  (∀ head head',
      tbl_head font = Some head → tbl_head font' = Some head' →
      (0 ≤ macStyle head < 2 ^ 16)%Z → (0 ≤ macStyle head' < 2 ^ 16)%Z)
  ∧ (∀ os2' weight_value lo hi,
        tbl_OS2 font' = Some os2' → axes !! "wght" = Some weight_value →
        (0 ≤ lo)%Z →
        (Qc_of_Z lo ≤ weight_value)%Qc → (weight_value ≤ Qc_of_Z hi)%Qc →
        (lo ≤ usWeightClass os2' ≤ hi)%Z).
Proof.
  unfold update_font_names.
  destruct (tbl_name font) as [names|]; [|done]. intros [= <-].
  cbn [tbl_OS2 tbl_head]. split.
  - intros head head' -> [= <-]. cbn [macStyle set_macStyle].
    apply update_macStyle_range.
  - intros os2' weight_value lo hi Hos2 Hw Hlo Hle Hge.
    destruct (tbl_OS2 font) as [os2|]; [|done]. injection Hos2 as <-.
    cbn [usWeightClass set_usWeightClass]. unfold weight_value_of.
    rewrite Hw. unfold default, id.
    assert (0 ≤ weight_value)%Qc as Hnn.
    { eapply Qcle_trans; [|exact Hle]. unfold Qcle.
      change (inject_Z 0 <= inject_Z lo)%Q. by rewrite <- Zle_Qle. }
    destruct (int_nonneg weight_value Hnn) as [H1 H2].
    pose proof (Qcle_lt_trans _ _ _ Hle H2) as H3.
    pose proof (Qcle_trans _ _ _ H1 Hge) as H4.
    unfold Qclt in H3. unfold Qcle in H4.
    change (inject_Z lo < inject_Z (Py.int weight_value + 1))%Q in H3.
    change (inject_Z (Py.int weight_value) <= inject_Z hi)%Q in H4.
    rewrite <- Zlt_Qlt in H3. rewrite <- Zle_Qle in H4. lia.
Qed.

End Names.

(** ** The static font of a variant *)

Section StaticFont.
Import FontTools GenerateFonts.

Lemma lookup_foldl_delete (tables : gmap string (list Byte.byte))
    (tags : list string) (tag : string) :
  foldl (λ tables table, delete table tables) tables tags !! tag
  = if decide (tag ∈ tags) then None else tables !! tag.
Proof.
  revert tables. induction tags as [|t tags IH]; intros tables; cbn [foldl].
  - destruct (decide (tag ∈ [])) as [H|H]; [by apply elem_of_nil in H|done].
  - rewrite IH.
    destruct (decide (tag ∈ tags)) as [Hin|Hnin],
             (decide (tag ∈ t :: tags)) as [Hin'|Hnin']; try done.
    + destruct Hnin'. by right.
    + apply elem_of_cons in Hin' as [->|?]; [|done].
      apply lookup_delete_eq.
    + rewrite lookup_delete_ne; [done|]. intros ->. apply Hnin'. by left.
Qed.

(** X16: [remove_variation_tables] removes the eight variation tables and
    nothing else, and removing them again changes nothing. *)
Theorem remove_variation_tables_exact (font : TTFont) :
  let static_font := remove_variation_tables font in
  tbl_fvar static_font = None
  ∧ (∀ tag, tag ∈ variation_tables → tbl_other static_font !! tag = None)
  ∧ (∀ tag, tag ∉ variation_tables →
            tbl_other static_font !! tag = tbl_other font !! tag)
  ∧ tbl_name static_font = tbl_name font
  ∧ tbl_OS2 static_font = tbl_OS2 font
  ∧ tbl_head static_font = tbl_head font
  ∧ remove_variation_tables static_font = static_font.
Proof.
  intros static_font. unfold static_font, remove_variation_tables.
  cbn [tbl_fvar tbl_name tbl_OS2 tbl_head tbl_other].
  split; [done|]. split; [|split].
  - intros tag Hin. by rewrite lookup_foldl_delete, decide_True.
  - intros tag Hnin. by rewrite lookup_foldl_delete, decide_False.
  - repeat (split; [done|]). f_equal. apply map_eq. intros tag.
    rewrite !lookup_foldl_delete. by destruct (decide _).
Qed.

Lemma update_font_names_other_tables (font font' : TTFont)
    (font_name variant_name : string) (axes : gmap string Qc) :
  update_font_names font font_name variant_name axes = inr font' →
  tbl_fvar font' = tbl_fvar font ∧ tbl_other font' = tbl_other font.
Proof.
  unfold update_font_names. destruct (tbl_name font); [|done].
  by intros [= <-].
Qed.

Context (instantiateVariableFont : TTFont → gmap string Qc → Py.result TTFont)
        (FS : Type)
        (save : TTFont → string → string → FS → FS * option Py.exn).

(** X17: a successful [generate_variant] saved, under the PostScript name
    followed by [.ttf], the renamed instance without variation tables; a
    variant whose instantiation or renaming fails writes no file. *)
Theorem generate_variant_saved_font (font : TTFont)
    (font_name variant_name : string) (variant_config : gmap string Qc)
    (global_axes : gmap string (option Qc)) (font_defaults : gmap string Qc)
    (output_folder : string) (w : World FS) :
  let resolved_axes :=
    resolve_axes (merge_axes global_axes variant_config) font_defaults in
  let r := generate_variant instantiateVariableFont FS save font font_name
             variant_name variant_config global_axes font_defaults
             output_folder w in
  (r.2 = true →
   ∃ instance static_font,
     instantiateVariableFont font resolved_axes = inr instance
     ∧ update_font_names (remove_variation_tables instance) font_name
                         variant_name resolved_axes = inr static_font
     ∧ save static_font output_folder
            (ps_name font_name variant_name +:+ ".ttf") (files FS w)
       = (files FS r.1, None)
     ∧ tbl_fvar static_font = None
     ∧ ∀ tag, tag ∈ variation_tables → tbl_other static_font !! tag = None)
  ∧ ((∀ instance static_font,
         instantiateVariableFont font resolved_axes = inr instance →
         update_font_names (remove_variation_tables instance) font_name
                           variant_name resolved_axes ≠ inr static_font) →
     r.2 = false ∧ files FS r.1 = files FS w).
Proof.
  intros resolved_axes r. unfold r, generate_variant.
  fold resolved_axes.
  destruct (instantiateVariableFont font resolved_axes) as [e|instance] eqn:Hi;
    cbn [Py.bind].
  { split; [done|]. by intros _. }
  destruct (update_font_names (remove_variation_tables instance) font_name
              variant_name resolved_axes) as [e|static_font] eqn:Hu.
  { split; [done|]. by intros _. }
  split.
  - replace (Py.remove_spaces font_name +:+ "-" +:+ variant_name +:+ ".ttf")
      with (ps_name font_name variant_name +:+ ".ttf")
      by (unfold ps_name; by rewrite string_app_assoc).
    destruct (save _ _ _ _) as [fs [e|]] eqn:Hsave; [done|]. intros _.
    exists instance, static_font. split; [done|]. split; [done|].
    split; [done|].
    destruct (update_font_names_other_tables _ _ _ _ _ Hu) as [-> ->].
    split; [done|]. intros tag Hin.
    cbn [tbl_other remove_variation_tables].
    by rewrite lookup_foldl_delete, decide_True.
  - intros Hno. by destruct (Hno instance static_font eq_refl).
Qed.

End StaticFont.

(** ** The files a run saves *)

Section SaveCalls.
Import FontTools GenerateFonts.

Context (instantiateVariableFont : TTFont → gmap string Qc → Py.result TTFont)
        (raises : TTFont → string → string → option Py.exn).

Local Abbreviation FS := (list (string * string)).

Lemma generate_variant_save_call (font : TTFont)
    (font_name variant_name : string) (variant_config : gmap string Qc)
    (global_axes : gmap string (option Qc)) (font_defaults : gmap string Qc)
    (output_folder : string) (w : World FS) :
  let r := generate_variant instantiateVariableFont FS
             (recording_save raises) font font_name variant_name
             variant_config global_axes font_defaults output_folder w in
  (files FS r.1 = files FS w ∧ r.2 = false)
  ∨ files FS r.1
    = files FS w
      ++ [(output_folder,
           Py.remove_spaces font_name +:+ "-" +:+ variant_name +:+ ".ttf")].
Proof.
  unfold generate_variant.
  destruct (instantiateVariableFont _ _) as [e|instance]; cbn [Py.bind].
  { by left. }
  destruct (update_font_names _ _ _ _) as [e|static_font].
  { by left. }
  unfold recording_save. right. by destruct (raises _ _ _).
Qed.

(** X13: over one run of the variant loop on a document whose variant
    names are pairwise distinct, the calls of [save], whether they raise
    or not, are made in document order, each for a variant of the
    document, into the output directory and under the family name
    without spaces, a hyphen, the variant name and [.ttf]; no two calls
    use the same file name, and every counted success made one call. *)
Theorem save_calls_distinct_files (font : TTFont) (font_name : string)
    (config : Config) (font_defaults : gmap string Qc)
    (output_dir : string) (w : World FS) :
  NoDup (cfg_variants config).*1 →
  let r := generate_variants instantiateVariableFont FS
             (recording_save raises) font font_name config font_defaults
             output_dir w in
  ∃ calls,
    files FS r.1 = files FS w ++ calls
    ∧ calls `sublist_of`
        (λ nv, (output_dir,
                Py.remove_spaces font_name +:+ "-" +:+ nv.1 +:+ ".ttf"))
          <$> cfg_variants config
    ∧ NoDup calls.*2
    ∧ (r.2 ≤ length calls)%nat.
Proof.
  intros Hnames r.
  set (planned := λ nv : string * gmap string Qc,
         (output_dir,
          Py.remove_spaces font_name +:+ "-" +:+ nv.1 +:+ ".ttf")).
  assert (Hrun : ∃ calls,
    files FS r.1 = files FS w ++ calls
    ∧ calls `sublist_of` planned <$> cfg_variants config
    ∧ (r.2 ≤ length calls)%nat).
  { unfold r, generate_variants. clear Hnames.
    induction (cfg_variants config) as [|nv l IH] using rev_ind.
    - exists []. by rewrite app_nil_r.
    - rewrite foldl_app. cbn [foldl].
      destruct (foldl _ _ l) as [w1 n1].
      destruct IH as (calls & Hcalls & Hsub & Hlen). cbn [fst snd] in *.
      pose proof (generate_variant_save_call font font_name nv.1 nv.2
                    (cfg_axes config) font_defaults output_dir w1) as Hv.
      cbv zeta in Hv.
      destruct (generate_variant _ _ _ _ _ _ _ _ _ _ _) as [w2 ok].
      cbn [fst snd] in *. rewrite fmap_app. cbn [fmap list_fmap].
      destruct Hv as [[Hfiles ->]|Hfiles].
      + exists calls. split; [by rewrite Hfiles|]. split; [|done].
        by apply sublist_inserts_r.
      + exists (calls ++ [planned nv]). split.
        { by rewrite Hfiles, Hcalls, <- app_assoc. }
        split; [by apply sublist_app|].
        rewrite length_app. cbn. destruct ok; lia. }
  destruct Hrun as (calls & Hcalls & Hsub & Hlen).
  exists calls. split; [done|]. split; [done|]. split; [|done].
  apply (sublist_NoDup _ ((planned <$> cfg_variants config).*2));
    [|by apply fmap_sublist].
  assert (Hinj : Inj (=) (=)
            (λ variant_name,
               Py.remove_spaces font_name +:+ "-" +:+ variant_name
               +:+ ".ttf")).
  { intros v1 v2. apply output_filename_inj. }
  apply (NoDup_fmap_2
           (λ variant_name,
              Py.remove_spaces font_name +:+ "-" +:+ variant_name
              +:+ ".ttf")) in Hnames.
  by rewrite <- !list_fmap_compose in *.
Qed.

End SaveCalls.

(** ** From the dumped document to the generated variants *)

Section EndToEnd.
Import FontTools GenerateFonts.

Context (toUnicode : NameRecord → Py.result string)
        (instantiateVariableFont : TTFont → gmap string Qc → Py.result TTFont)
        (FS : Type)
        (save : TTFont → string → string → FS → FS * option Py.exn).







End EndToEnd.

(** ** When instance names coincide *)

Lemma to_int_not_nil (n : Z) :
  Z.to_int n ≠ Decimal.Pos Decimal.Nil ∧ Z.to_int n ≠ Decimal.Neg Decimal.Nil.
Proof.
  destruct n as [|p|p]; cbn; split; try done;
    intros [= H]; by apply Unsigned.to_uint_nonnil in H.
Qed.

Lemma str_of_int_inj (n m : Z) : Py.str_of_int n = Py.str_of_int m → n = m.
Proof.
  unfold Py.str_of_int. intros H. apply DecimalZ.to_int_inj.
  destruct (to_int_not_nil n) as [Hn1 Hn2], (to_int_not_nil m) as [Hm1 Hm2].
  pose proof (NilZero.isi _ Hn1 Hn2) as En.
  pose proof (NilZero.isi _ Hm1 Hm2) as Em.
  rewrite H in En. congruence.
Qed.

Lemma str_of_int_nonempty (n : Z) : Py.str_of_int n ≠ "".
Proof.
  unfold Py.str_of_int. intros H.
  destruct (to_int_not_nil n) as [Hn1 Hn2].
  pose proof (NilZero.isi _ Hn1 Hn2) as En. by rewrite H in En.
Qed.

Section NameCollisions.
Import DumpConfig.

Lemma string_app_nil_r (s : string) : s +:+ "" = s.
Proof.
  induction s as [|c s IH]; [done|].
  change (String c (s +:+ "") = String c s). by rewrite IH.
Qed.

Lemma label_app_inj (k1 k2 : Z) (label1 label2 d1 d2 : string) :
  (k1, label1) ∈ weight_names → (k2, label2) ∈ weight_names →
  label1 +:+ d1 = label2 +:+ d2 → k1 = k2 ∧ d1 = d2.
Proof.
  unfold weight_names. intros H1 H2.
  repeat (apply elem_of_cons in H1 as [H1|H1]);
    [..|by apply elem_of_nil in H1]; injection H1 as -> ->;
    repeat (apply elem_of_cons in H2 as [H2|H2]);
    try (by apply elem_of_nil in H2); injection H2 as -> ->;
    simpl; intros H; by simplify_eq.
Qed.

Lemma label_not_Instance (k : Z) (label d1 d2 : string) :
  (k, label) ∈ weight_names → label +:+ d1 ≠ "Instance" +:+ d2.
Proof.
  unfold weight_names. intros H1.
  repeat (apply elem_of_cons in H1 as [H1|H1]);
    [..|by apply elem_of_nil in H1]; injection H1 as -> ->;
    simpl; intros H; by simplify_eq.
Qed.

Lemma weight_names_mem_true (w : Qc) :
  weight_names_mem w = true →
  ∃ k label, (k, label) ∈ weight_names ∧ Qc_of_Z k = w.
Proof.
  intros ([k label] & Hin & Hk)%existsb_exists.
  apply bool_decide_eq_true in Hk. exists k, label.
  split; [by apply list_elem_of_In|done].
Qed.

Lemma weight_names_mem_false_inv (w : Qc) :
  weight_names_mem w = false →
  ∀ k, k ∈ weight_names_keys → Qc_of_Z k ≠ w.
Proof.
  intros Hmem k [label Hin]%weight_names_keys_elem_of Hk.
  destruct (weight_names_exact k label Hin) as [Hmem' _].
  rewrite Hk in Hmem'. congruence.
Qed.

(** The name of an instance with a [wght] coordinate, as a label and a
    suffix. *)
Lemma instance_name_weighted (i : nat) (coordinates : gmap string Qc)
    (w : Qc) :
  coordinates !! "wght" = Some w →
  ∃ k label d,
    (k, label) ∈ weight_names
    ∧ instance_name i coordinates = inr (label +:+ d)
    ∧ ((Qc_of_Z k = w ∧ d = "")
       ∨ ((∀ k', k' ∈ weight_names_keys → Qc_of_Z k' ≠ w)
          ∧ Py.min weight_names_keys (distance w) = inr k
          ∧ d = Py.str_of_int (Py.int w))).
Proof.
  intros Hw. destruct (weight_names_mem w) eqn:Hmem.
  - apply weight_names_mem_true in Hmem as (k & label & Hin & Hk).
    exists k, label, "". split; [done|]. split; [|by left].
    unfold instance_name. rewrite Hw, <- Hk.
    destruct (weight_names_exact k label Hin) as [-> ->].
    by rewrite string_app_nil_r.
  - pose proof (weight_names_mem_false_inv w Hmem) as Hne.
    destruct (min_nonempty (distance w) weight_names_keys) as [k Hk]; [done|].
    destruct (min_minimal _ _ _ Hk) as [[label Hin]%weight_names_keys_elem_of _].
    exists k, label, (Py.str_of_int (Py.int w)). split; [done|].
    split; [by eapply not_exact_instance_name|]. by right.
Qed.

(** X19: two instances with [wght] coordinates get the same name exactly when
    the coordinates are equal, or neither is a canonical weight and both
    have the same nearest canonical weight and the same integer part. *)
Theorem weighted_names_collide_iff (i j : nat)
    (coordinates1 coordinates2 : gmap string Qc) (w1 w2 : Qc) :
  coordinates1 !! "wght" = Some w1 →
  coordinates2 !! "wght" = Some w2 →
  instance_name i coordinates1 = instance_name j coordinates2
  ↔ w1 = w2
    ∨ ((∀ k, k ∈ weight_names_keys → Qc_of_Z k ≠ w1)
       ∧ (∀ k, k ∈ weight_names_keys → Qc_of_Z k ≠ w2)
       ∧ Py.min weight_names_keys (distance w1)
         = Py.min weight_names_keys (distance w2)
       ∧ Py.int w1 = Py.int w2).
Proof.
  intros Hw1 Hw2. split.
  - destruct (instance_name_weighted i coordinates1 w1 Hw1)
      as (k1 & l1 & d1 & Hin1 & -> & Hc1).
    destruct (instance_name_weighted j coordinates2 w2 Hw2)
      as (k2 & l2 & d2 & Hin2 & -> & Hc2).
    intros [= Heq]. apply (label_app_inj k1 k2) in Heq as [<- <-]; [|done..].
    destruct Hc1 as [[<- Hd1]|(Hne1 & Hmin1 & Hd1)],
             Hc2 as [[<- Hd2]|(Hne2 & Hmin2 & Hd2)].
    + by left.
    + rewrite Hd1 in Hd2. symmetry in Hd2. by apply str_of_int_nonempty in Hd2.
    + rewrite Hd2 in Hd1. symmetry in Hd1. by apply str_of_int_nonempty in Hd1.
    + right. split; [done|]. split; [done|]. split; [congruence|].
      apply str_of_int_inj. congruence.
  - intros [<-|(Hne1 & Hne2 & Hmin & Hint)].
    + unfold instance_name. by rewrite Hw1, Hw2.
    + destruct (min_nonempty (distance w1) weight_names_keys) as [k Hk];
        [done|].
      destruct (min_minimal _ _ _ Hk)
        as [[label Hin]%weight_names_keys_elem_of _].
      rewrite (not_exact_instance_name i coordinates1 w1 k label) by done.
      rewrite Hmin in Hk.
      rewrite (not_exact_instance_name j coordinates2 w2 k label) by done.
      by rewrite Hint.
Qed.

(** X20: an instance without a [wght] coordinate shares its name with no
    instance at another position. *)
Theorem unweighted_names_never_collide (i j : nat)
    (coordinates1 coordinates2 : gmap string Qc) :
  coordinates1 !! "wght" = None → i ≠ j →
  instance_name i coordinates1 ≠ instance_name j coordinates2.
Proof.
  intros Hw1 Hij. unfold instance_name at 1. rewrite Hw1.
  destruct (coordinates2 !! "wght") as [w2|] eqn:Hw2.
  - destruct (instance_name_weighted j coordinates2 w2 Hw2)
      as (k & label & d & Hin & -> & _).
    intros [= Heq]. symmetry in Heq.
    by apply (label_not_Instance k) in Heq.
  - unfold instance_name. rewrite Hw2. intros [= Heq].
    apply string_app_inv_head, str_of_int_inj in Heq. lia.
Qed.

End NameCollisions.

(** ** The properties on the sample font *)

Example sample_font_info :
  DumpConfig.extract_font_info Sample.toUnicode "/fonts/DemoSans.ttf"
    "DemoSans" Sample.font = inr Sample.font_info.
Proof. reflexivity. Qed.

Lemma variants_last_instance_wins_witness :
  NoDup (DumpConfig.variants Sample.font_info).*1
  ∧ ∀ name coords,
      (name, coords) ∈ DumpConfig.variants Sample.font_info
      ↔ ∃ j instance,
          FontTools.instances Sample.fvar !! j = Some instance
          ∧ DumpConfig.instance_name j (FontTools.coordinates instance)
            = inr name
          ∧ FontTools.coordinates instance = coords
          ∧ ∀ j' instance',
              (j < j')%nat →
              FontTools.instances Sample.fvar !! j' = Some instance' →
              DumpConfig.instance_name j' (FontTools.coordinates instance')
              ≠ inr name.
Proof.
  apply (variants_last_instance_wins Sample.toUnicode "/fonts/DemoSans.ttf"
           "DemoSans" Sample.font Sample.fvar Sample.font_info);
    reflexivity.
Defined.

Lemma same_weight_instances_collide_witness :
  DumpConfig.instance_name 0
    {[ "wght" := Qc_of_Z 400; "wdth" := Qc_of_Z 100 ]}
  = DumpConfig.instance_name 3
      {[ "wght" := Qc_of_Z 400; "wdth" := Qc_of_Z 75 ]}
  ∧ (length (DumpConfig.variants Sample.font_info)
     < length (FontTools.instances Sample.fvar))%nat.
Proof.
  refine (same_weight_instances_collide Sample.toUnicode "/fonts/DemoSans.ttf"
           "DemoSans" Sample.font Sample.fvar Sample.font_info 0 3
           (FontTools.mkNamedInstance 256
              {[ "wght" := Qc_of_Z 400; "wdth" := Qc_of_Z 100 ]})
           (FontTools.mkNamedInstance 259
              {[ "wght" := Qc_of_Z 400; "wdth" := Qc_of_Z 75 ]})
           (Qc_of_Z 400) _ _ _ _ _ _ _); try reflexivity.
  lia.
Defined.

Lemma weighted_names_collide_iff_witness :
  DumpConfig.instance_name 1 {[ "wght" := Q2Qc (3251 # 5) ]}
  = DumpConfig.instance_name 2 {[ "wght" := Q2Qc (6507 # 10) ]}
  ↔ Q2Qc (3251 # 5) = Q2Qc (6507 # 10)
    ∨ ((∀ k, k ∈ DumpConfig.weight_names_keys →
             Qc_of_Z k ≠ Q2Qc (3251 # 5))
       ∧ (∀ k, k ∈ DumpConfig.weight_names_keys →
               Qc_of_Z k ≠ Q2Qc (6507 # 10))
       ∧ Py.min DumpConfig.weight_names_keys
                (DumpConfig.distance (Q2Qc (3251 # 5)))
         = Py.min DumpConfig.weight_names_keys
                  (DumpConfig.distance (Q2Qc (6507 # 10)))
       ∧ Py.int (Q2Qc (3251 # 5)) = Py.int (Q2Qc (6507 # 10))).
Proof.
  apply (weighted_names_collide_iff 1 2 {[ "wght" := Q2Qc (3251 # 5) ]}
           {[ "wght" := Q2Qc (6507 # 10) ]}); reflexivity.
Defined.

Lemma unweighted_names_never_collide_witness :
  DumpConfig.instance_name 0 ∅ ≠ DumpConfig.instance_name 1 ∅.
Proof.
  apply (unweighted_names_never_collide 0 1 ∅ ∅); [reflexivity|lia].
Defined.

Lemma nearest_weight_interval_witness :
  Py.min DumpConfig.weight_names_keys
         (DumpConfig.distance (Q2Qc (6507 # 10))) = inr 700
  ∧ ∀ i coordinates,
      coordinates !! "wght" = Some (Q2Qc (6507 # 10)) →
      (∀ k, k ∈ DumpConfig.weight_names_keys →
            Qc_of_Z k ≠ Q2Qc (6507 # 10)) →
      ∃ label,
        (700, label) ∈ DumpConfig.weight_names
        ∧ DumpConfig.instance_name i coordinates
          = inr (label +:+ Py.str_of_int (Py.int (Q2Qc (6507 # 10)))).
Proof.
  apply (nearest_weight_interval (Q2Qc (6507 # 10)) 700).
  - unfold DumpConfig.weight_names_keys, DumpConfig.weight_names. simpl.
    do 6 right. left.
  - right. reflexivity.
  - right. vm_compute. discriminate.
Defined.

Lemma pipelines_agree_witness :
  ∃ font_info,
    DumpConfig.extract_font_info Sample.toUnicode "/fonts/DemoSans.ttf"
      "DemoSans" Sample.font = inr font_info
    ∧ DumpConfig.axes_defaults font_info
      = {[ "wght" := Qc_of_Z 400; "wdth" := Qc_of_Z 100 ]}
    ∧ DumpConfig.font_name font_info = "Demo Sans".
Proof.
  apply (pipelines_agree Sample.toUnicode "/fonts/DemoSans.ttf" "DemoSans"
           Sample.font {[ "wght" := Qc_of_Z 400; "wdth" := Qc_of_Z 100 ]}
           "Demo Sans").
  reflexivity.
Defined.

Lemma override_exactly_not_hoisted_witness :
  ∃ override,
    cfg_variants (DumpConfig.create_config_structure Sample.font_info)
      !! 1%nat = Some ("Bold650", override)
    ∧ override ⊆ {[ "wght" := Q2Qc (6507 # 10); "wdth" := Qc_of_Z 100 ]}
    ∧ ∀ v : Qc,
        override !! "wght" = Some v
        ↔ ({[ "wght" := Q2Qc (6507 # 10); "wdth" := Qc_of_Z 100 ]}
             : gmap string Qc) !! "wght" = Some v
          ∧ ¬ ("wght" ∈ dom (DumpConfig.axes_defaults Sample.font_info)
               ∧ ∀ name' coords' x,
                   (name', coords') ∈ DumpConfig.variants Sample.font_info →
                   coords' !! "wght" = Some x → x = v).
Proof.
  apply (override_exactly_not_hoisted Sample.font_info 1 "Bold650"
           {[ "wght" := Q2Qc (6507 # 10); "wdth" := Qc_of_Z 100 ]} "wght").
  reflexivity.
Defined.

Lemma dense_instance_round_trip_witness :
  ∃ override,
    cfg_variants (DumpConfig.create_config_structure Sample.font_info)
      !! 1%nat = Some ("Bold650", override)
    ∧ GenerateFonts.resolve_axes
        (GenerateFonts.merge_axes
           (cfg_axes (DumpConfig.create_config_structure Sample.font_info))
           override)
        (DumpConfig.axes_defaults Sample.font_info)
      = {[ "wght" := Q2Qc (6507 # 10); "wdth" := Qc_of_Z 100 ]}.
Proof.
  apply (dense_instance_round_trip Sample.font_info 1 "Bold650"
           {[ "wght" := Q2Qc (6507 # 10); "wdth" := Qc_of_Z 100 ]}).
  - reflexivity.
  - by vm_compute.
Defined.

Lemma sparse_instance_inherits_witness :
  let font_info :=
    {| DumpConfig.font_path := "/fonts/Demo.ttf";
       DumpConfig.font_name := "Demo";
       DumpConfig.axes_defaults :=
         {[ "wght" := Qc_of_Z 400; "wdth" := Qc_of_Z 90 ]};
       DumpConfig.variants :=
         [ ("Regular", {[ "wght" := Qc_of_Z 400 ]});
           ("Bold", {[ "wght" := Qc_of_Z 700; "wdth" := Qc_of_Z 100 ]}) ] |} in
  ∃ override,
    cfg_variants (DumpConfig.create_config_structure font_info) !! 0%nat
    = Some ("Regular", override)
    ∧ GenerateFonts.resolve_axes
        (GenerateFonts.merge_axes
           (cfg_axes (DumpConfig.create_config_structure font_info)) override)
        (DumpConfig.axes_defaults font_info) !! "wdth"
      = Some (Qc_of_Z 100).
Proof.
  intros font_info.
  destruct (sparse_instance_inherits font_info 0 "Regular"
              {[ "wght" := Qc_of_Z 400 ]} "wdth" (Qc_of_Z 90))
    as (override & Hov & Hres & _); [reflexivity..|].
  exists override. split; [exact Hov|exact Hres].
Defined.

Lemma update_font_names_last_wins_witness :
  let font1 :=
    match GenerateFonts.update_font_names Sample.font "Demo Sans" "Bold"
            {[ "wght" := Qc_of_Z 700 ]} with
    | inr font' => font'
    | inl _ => Sample.font
    end in
  GenerateFonts.update_font_names font1 "Demo Sans" "Regular"
    {[ "wght" := Qc_of_Z 400 ]}
  = GenerateFonts.update_font_names Sample.font "Demo Sans" "Regular"
      {[ "wght" := Qc_of_Z 400 ]}.
Proof.
  intros font1.
  apply (update_font_names_last_wins Sample.font font1 "Demo Sans" "Bold"
           "Demo Sans" "Regular" {[ "wght" := Qc_of_Z 700 ]}
           {[ "wght" := Qc_of_Z 400 ]}).
  reflexivity.
Defined.

Lemma update_font_names_ranges_witness :
  let font' :=
    match GenerateFonts.update_font_names Sample.font "Demo Sans" "Bold650"
            {[ "wght" := Q2Qc (6507 # 10) ]} with
    | inr font' => font'
    | inl _ => Sample.font
    end in
  (∀ head head',
      FontTools.tbl_head Sample.font = Some head →
      FontTools.tbl_head font' = Some head' →
      (0 ≤ FontTools.macStyle head < 2 ^ 16)%Z →
      (0 ≤ FontTools.macStyle head' < 2 ^ 16)%Z)
  ∧ (∀ os2' weight_value lo hi,
        FontTools.tbl_OS2 font' = Some os2' →
        ({[ "wght" := Q2Qc (6507 # 10) ]} : gmap string Qc) !! "wght"
        = Some weight_value →
        (0 ≤ lo)%Z →
        (Qc_of_Z lo ≤ weight_value)%Qc → (weight_value ≤ Qc_of_Z hi)%Qc →
        (lo ≤ FontTools.usWeightClass os2' ≤ hi)%Z).
Proof.
  intros font'.
  apply (update_font_names_ranges Sample.font font' "Demo Sans" "Bold650"
           {[ "wght" := Q2Qc (6507 # 10) ]}).
  reflexivity.
Defined.

Lemma generate_variant_saved_font_witness :
  ∃ instance static_font,
    Sample.instantiateVariableFont Sample.font
      {[ "wght" := Qc_of_Z 700; "wdth" := Qc_of_Z 100 ]} = inr instance
    ∧ GenerateFonts.update_font_names
        (GenerateFonts.remove_variation_tables instance) "Demo Sans" "Bold"
        {[ "wght" := Qc_of_Z 700; "wdth" := Qc_of_Z 100 ]} = inr static_font
    ∧ Sample.save static_font "output" "DemoSans-Bold.ttf" []
      = ([("output", "DemoSans-Bold.ttf")], None)
    ∧ FontTools.tbl_fvar static_font = None
    ∧ ∀ tag, tag ∈ GenerateFonts.variation_tables →
             FontTools.tbl_other static_font !! tag = None.
Proof.
  exact (proj1 (generate_variant_saved_font Sample.instantiateVariableFont
                  (list (string * string)) Sample.save Sample.font
                  "Demo Sans" "Bold" {[ "wght" := Qc_of_Z 700 ]}
                  {[ "wght" := None; "wdth" := Some (Qc_of_Z 100) ]}
                  {[ "wght" := Qc_of_Z 400; "wdth" := Qc_of_Z 100 ]}
                  "output" (GenerateFonts.mkWorld _ [] []))
               eq_refl).
Defined.


Lemma save_calls_distinct_files_witness :
  let r :=
    GenerateFonts.generate_variants Sample.instantiateVariableFont
      (list (string * string)) (recording_save (λ _ _ _, None))
      Sample.font "Demo Sans"
      (DumpConfig.create_config_structure Sample.font_info)
      (DumpConfig.axes_defaults Sample.font_info) "output"
      (GenerateFonts.mkWorld _ [] []) in
  ∃ calls,
    GenerateFonts.files _ r.1 = [] ++ calls
    ∧ calls `sublist_of`
        [ ("output", "DemoSans-Regular.ttf");
          ("output", "DemoSans-Bold650.ttf") ]
    ∧ NoDup calls.*2
    ∧ (r.2 ≤ length calls)%nat.
Proof.
  apply (save_calls_distinct_files Sample.instantiateVariableFont
           (λ _ _ _, None) Sample.font "Demo Sans"
           (DumpConfig.create_config_structure Sample.font_info)
           (DumpConfig.axes_defaults Sample.font_info) "output"
           (GenerateFonts.mkWorld _ [] [])).
  cbn. apply NoDup_cons. split.
  - intros Hin. apply elem_of_cons in Hin as [Heq|Hin]; [discriminate Heq|].
    by apply elem_of_nil in Hin.
  - apply NoDup_singleton.
Defined.

Example save_calls_sample :
  GenerateFonts.files _
    (GenerateFonts.generate_variants Sample.instantiateVariableFont
       (list (string * string)) (recording_save (λ _ _ _, None))
       Sample.font "Demo Sans"
       (DumpConfig.create_config_structure Sample.font_info)
       (DumpConfig.axes_defaults Sample.font_info) "output"
       (GenerateFonts.mkWorld _ [] [])).1
  = [ ("output", "DemoSans-Regular.ttf"); ("output", "DemoSans-Bold650.ttf") ].
Proof. reflexivity. Qed.
